(** * Form controllers of jules-components: LoginForm and SignupForm

    A shallow embedding of the control logic of the two React components
    [src/react/forms/LoginForm.tsx] and the signup form (same layout, the
    file with the [SignupForm] default export): the validators, the
    [handleSubmit] handler and the state held by the [useState] hooks.
    The JSX markup is not part of the model.

    Conventions of the embedding:
    - a JavaScript string is a [string]; one character of the model stands
      for one UTF-16 code unit, so [String.length] is the [length] property;
    - the object held by [fieldErrors] is a finite map from property names
      to strings: a property can be absent, or present with the value [""];
    - a handler is a computation over the component state that also emits a
      trace of the calls it makes to its collaborators (the adapter, the
      success callback, the browser) and that may complete abruptly (a
      JavaScript exception or a rejected promise);
    - an [async] handler is cut at its first [await]: the part before it
      runs when the form is submitted, the part after it when the adapter's
      promise settles, and other events may happen in between. *)

From Stdlib Require Import String Ascii List Bool Arith Lia.
From Stdlib Require Import Floats.PrimFloat.
From stdpp Require Import base option strings list gmap.

Local Set Warnings "-register-all".
Local Open Scope string_scope.

(** ** JavaScript values and operators used by the components *)

Module JS.

(** [ToBoolean] on a string: only the empty string is falsy.  This is the
    test behind [!email], [emailError || passwordError] and
    [fieldErrors.email && ...]. *)
Definition truthy (s : string) : bool := negb (String.eqb s "").

(** [s.includes(pat)]: [pat] occurs in [s] as a substring. *)
Fixpoint includes (s pat : string) : bool :=
  String.prefix pat s
  || match s with
     | EmptyString => false
     | String _ s' => includes s' pat
     end.

(** What [includes] is meant to decide: [s] splits around a copy of [pat]. *)
Definition occurs (pat s : string) : Prop :=
  exists pre post, s = String.append pre (String.append pat post).

(** The values [JSON.parse] can produce.  Numbers are IEEE doubles. *)
Inductive json : Type :=
  | JNull
  | JBool (b : bool)
  | JNum (x : float)
  | JStr (s : string)
  | JArr (items : list json)
  | JObj (props : gmap string json).

(** [ToBoolean] on a JSON value. *)
Definition to_boolean (v : json) : bool :=
  match v with
  | JNull => false
  | JBool b => b
  | JNum x => negb (PrimFloat.is_zero x || PrimFloat.is_nan x)
  | JStr s => truthy s
  | JArr _ | JObj _ => true
  end.

(** Outcome of evaluating an expression or a statement: it completes
    normally with a value or abruptly with a thrown exception. *)
Inductive completion (A : Type) : Type :=
  | Normal (a : A)
  | Throw.
Arguments Normal {A} a.
Arguments Throw {A}.

(** [data.error] for a parsed body [data].  Reading a property of [null]
    throws a [TypeError]; an object yields its own property, [undefined]
    ([None]) when it has none; the wrappers of the other values have no
    property of that name. *)
Definition get_error (data : json) : completion (option json) :=
  match data with
  | JNull => Throw
  | JObj props => Normal (props !! "error")
  | JBool _ | JNum _ | JStr _ | JArr _ => Normal None
  end.

(** [v || d] where [v] may be [undefined]. *)
Definition or_else (v : option json) (d : json) : json :=
  match v with
  | Some x => if to_boolean x then x else d
  | None => d
  end.

End JS.

(** ** Handlers: state, trace of calls, abrupt completion *)

Module Handler.
Import JS.

Section Monad.
Context {St Ev : Type}.

(** A handler run from a state returns how it completed, the state it
    leaves and the calls it made, in order. *)
Definition M (A : Type) : Type := St -> completion A * St * list Ev.

Definition ret {A} (a : A) : M A := fun s => (Normal a, s, []).

Definition bind {A B} (m : M A) (k : A -> M B) : M B :=
  fun s =>
    match m s with
    | (Normal a, s1, t1) =>
        match k a s1 with
        | (r, s2, t2) => (r, s2, t1 ++ t2)%list
        end
    | (Throw, s1, t1) => (Throw, s1, t1)
    end.

Definition throw {A} : M A := fun s => (Throw, s, []).

(** A call to a collaborator, recorded in the trace. *)
Definition call (e : Ev) : M unit := fun s => (Normal tt, s, [e]).

(** The values of the current render. *)
Definition snapshot : M St := fun s => (Normal s, s, []).

(** A [useState] setter. *)
Definition set (f : St -> St) : M unit := fun s => (Normal tt, f s, []).

(** Lifts the completion of an expression. *)
Definition lift {A} (c : completion A) : M A :=
  match c with
  | Normal a => ret a
  | Throw => throw
  end.

(** [try { body } catch { handler } finally { final }]. *)
Definition try_catch_finally (body handler final : M unit) : M unit :=
  fun s =>
    let after_catch :=
      match body s with
      | (Normal a, s1, t1) => (Normal a, s1, t1)
      | (Throw, s1, t1) =>
          match handler s1 with
          | (r, s2, t2) => (r, s2, t1 ++ t2)%list
          end
      end in
    match after_catch with
    | (r, s2, t2) =>
        match final s2 with
        | (Normal _, s3, t3) => (r, s3, t2 ++ t3)%list
        | (Throw, s3, t3) => (Throw, s3, t2 ++ t3)%list
        end
    end.

Definition completed {A} (x : completion A * St * list Ev) : completion A :=
  fst (fst x).
Definition state_of {A} (x : completion A * St * list Ev) : St :=
  snd (fst x).
Definition calls_of {A} (x : completion A * St * list Ev) : list Ev :=
  snd x.
End Monad.

Arguments M : clear implicits.

Declare Scope handler_scope.
Delimit Scope handler_scope with handler.
Notation "x <- m ;; k" := (bind m (fun x => k))
  (at level 100, m at next level, right associativity,
   format "'[v' x  <-  m  ;;  '/' k ']'") : handler_scope.
Notation "m ;;; k" := (bind m (fun _ => k))
  (at level 100, right associativity,
   format "'[v' m  ;;;  '/' k ']'") : handler_scope.

End Handler.

(** ** LoginForm ([src/react/forms/LoginForm.tsx]) *)

Module LoginForm.
Import JS Handler.
Local Open Scope handler_scope.

(** The caller's [onSuccess] function, known by what a call to it does. *)
Inductive callback : Type :=
  | Returns
  | Throws.

(** [LoginFormProps]; an absent property is [None]. *)
Record LoginFormProps : Type := {
  onSuccess : option callback;
  redirectUrl : option string;
  signupUrl : option string
}.

(** The defaults of the destructured parameter. *)
Definition redirectUrl_or_default (props : LoginFormProps) : string :=
  default "/" (redirectUrl props).
Definition signupUrl_or_default (props : LoginFormProps) : string :=
  default "/signup" (signupUrl props).

Definition validateEmail (email : string) : string :=
  if negb (truthy email) then "Email is required"
  else if negb (includes email "@") || negb (includes email ".")
       then "Invalid email format"
  else "".

Definition validatePassword (password : string) : string :=
  if negb (truthy password) then "Password is required"
  else "".

(** The five [useState] cells. *)
Record State : Type := {
  email : string;
  password : string;
  loading : bool;
  error : string;
  fieldErrors : gmap string string
}.

Definition initial : State :=
  {| email := ""; password := ""; loading := false; error := "";
     fieldErrors := ∅ |}.

Definition setEmail (v : string) (s : State) : State :=
  {| email := v; password := password s; loading := loading s;
     error := error s; fieldErrors := fieldErrors s |}.
Definition setPassword (v : string) (s : State) : State :=
  {| email := email s; password := v; loading := loading s;
     error := error s; fieldErrors := fieldErrors s |}.
Definition setLoading (v : bool) (s : State) : State :=
  {| email := email s; password := password s; loading := v;
     error := error s; fieldErrors := fieldErrors s |}.
Definition setError (v : string) (s : State) : State :=
  {| email := email s; password := password s; loading := loading s;
     error := v; fieldErrors := fieldErrors s |}.
Definition setFieldErrors (v : gmap string string) (s : State) : State :=
  {| email := email s; password := password s; loading := loading s;
     error := error s; fieldErrors := v |}.

(** The object passed to [signIn] next to the provider name. *)
Record SignInOptions : Type := {
  opt_email : string;
  opt_password : string;
  opt_redirect : bool
}.

(** What the handler asks of its collaborators. *)
Inductive Call : Type :=
  | PreventDefault
  | SignIn (provider : string) (options : SignInOptions)
  | OnSuccess (cb : callback)
  | SetLocationHref (url : string).

(** The value [signIn] resolves to, as far as the handler reads it: it may
    be [undefined], and its [error] property may be [undefined]. *)
Record SignInResponse : Type := { resp_error : option string }.

(** How the promise returned by [signIn] settles. *)
Inductive SignInSettled : Type :=
  | Resolved (result : option SignInResponse)
  | Rejected.

(** [result?.error] as a condition. *)
Definition result_error_truthy (result : option SignInResponse) : bool :=
  match result with
  | Some r => match resp_error r with
              | Some e => truthy e
              | None => false
              end
  | None => false
  end.

Definition invoke (cb : callback) : M State Call unit :=
  call (OnSuccess cb) ;;;
  match cb with
  | Returns => ret tt
  | Throws => throw
  end.

(** [handleSubmit] up to the [await]: the result is the options handed to
    [signIn], or [None] when the handler returned before calling it. *)
Definition handleSubmit_begin : M State Call (option SignInOptions) :=
  call PreventDefault ;;;
  s <- snapshot ;;
  let emailError := validateEmail (email s) in
  let passwordError := validatePassword (password s) in
  if truthy emailError || truthy passwordError then
    set (setFieldErrors {[ "email" := emailError; "password" := passwordError ]}) ;;;
    ret None
  else
    set (setLoading true) ;;;
    set (setError "") ;;;
    let options :=
      {| opt_email := email s; opt_password := password s;
         opt_redirect := false |} in
    call (SignIn "credentials" options) ;;;
    ret (Some options).

(** [handleSubmit] from the point where the [await] is resumed. *)
Definition handleSubmit_resume (props : LoginFormProps)
    (settled : SignInSettled) : M State Call unit :=
  result <- match settled with
            | Resolved r => ret r
            | Rejected => throw
            end ;;
  if result_error_truthy result then
    set (setError "Invalid email or password") ;;;
    set (setLoading false)
  else
    match onSuccess props with
    | Some cb => invoke cb
    | None => call (SetLocationHref (redirectUrl_or_default props))
    end.

(** A whole run of [handleSubmit] with nothing happening during the
    [await]; [adapter] tells how [signIn] settles for the given options. *)
Definition handleSubmit (props : LoginFormProps)
    (adapter : SignInOptions -> SignInSettled) : M State Call unit :=
  sent <- handleSubmit_begin ;;
  match sent with
  | Some options => handleSubmit_resume props (adapter options)
  | None => ret tt
  end.

(** *** The component as a transition system *)

(** The form together with the [signIn] calls that have not settled. *)
Record System : Type := {
  form : State;
  inflight : list SignInOptions
}.

Inductive Event : Type :=
  | ChangeEmail (v : string)
  | ChangePassword (v : string)
  | Submit
  | Settle (i : nat) (settled : SignInSettled).

Definition start : System := {| form := initial; inflight := [] |}.

Definition step (props : LoginFormProps) (sys : System) (ev : Event)
    : option System :=
  match ev with
  | ChangeEmail v =>
      Some {| form := setEmail v (form sys); inflight := inflight sys |}
  | ChangePassword v =>
      Some {| form := setPassword v (form sys); inflight := inflight sys |}
  | Submit =>
      let r := handleSubmit_begin (form sys) in
      Some {| form := state_of r;
              inflight := match completed r with
                          | Normal (Some options) => inflight sys ++ [options]
                          | _ => inflight sys
                          end |}
  | Settle i settled =>
      match inflight sys !! i with
      | Some _ =>
          Some {| form := state_of (handleSubmit_resume props settled (form sys));
                  inflight := delete i (inflight sys) |}
      | None => None
      end
  end.

Fixpoint run (props : LoginFormProps) (sys : System) (evs : list Event)
    : option System :=
  match evs with
  | [] => Some sys
  | ev :: evs' =>
      match step props sys ev with
      | Some sys' => run props sys' evs'
      | None => None
      end
  end.

Definition reachable (props : LoginFormProps) (sys : System) : Prop :=
  exists evs, run props start evs = Some sys.

(** *** Vocabulary of the statements *)

(** The field values are those of [s]. *)
Definition same_fields (s s' : State) : Prop :=
  email s' = email s /\ password s' = password s.

(** The field values a submit finds when its validation fails: the
    values of the render, if [ev] is a submit and a validator returns a
    message for them. *)
Definition failed_pass (sys : System) (ev : Event) : list (string * string) :=
  match ev with
  | Submit =>
      if truthy (validateEmail (email (form sys)))
         || truthy (validatePassword (password (form sys)))
      then [(email (form sys), password (form sys))]
      else []
  | _ => []
  end.

(** The failed validation passes of a run, oldest first, each with the
    field values it found. *)
Fixpoint failed_passes (props : LoginFormProps) (sys : System)
    (evs : list Event) : list (string * string) :=
  match evs with
  | [] => []
  | ev :: evs' =>
      (failed_pass sys ev
       ++ match step props sys ev with
          | Some sys' => failed_passes props sys' evs'
          | None => []
          end)%list
  end.

End LoginForm.

(** ** SignupForm (the component whose default export is [SignupForm]) *)

Module SignupForm.
Import JS Handler.
Local Open Scope handler_scope.

(** The caller's [onSuccess] function, known by what a call to it does. *)
Inductive callback : Type :=
  | Returns
  | Throws.

(** [SignupFormProps]; an absent property is [None]. *)
Record SignupFormProps : Type := {
  apiEndpoint : option string;
  onSuccess : option callback;
  loginUrl : option string
}.

(** The defaults of the destructured parameter. *)
Definition apiEndpoint_or_default (props : SignupFormProps) : string :=
  default "/api/auth/signup" (apiEndpoint props).
Definition loginUrl_or_default (props : SignupFormProps) : string :=
  default "/login" (loginUrl props).

Definition validateEmail (email : string) : string :=
  if negb (truthy email) then "Email is required"
  else if negb (includes email "@") || negb (includes email ".")
       then "Invalid email format"
  else "".

Definition validatePassword (password : string) : string :=
  if negb (truthy password) then "Password is required"
  else if (String.length password <? 8)%nat
       then "Password must be at least 8 characters"
  else "".

(** The five [useState] cells.  [error] starts as a string, but
    [setError(data.error || ...)] stores whatever the parsed body holds
    ([data] is untyped), so the cell ranges over JSON values. *)
Record State : Type := {
  email : string;
  password : string;
  loading : bool;
  error : json;
  fieldErrors : gmap string string
}.

Definition initial : State :=
  {| email := ""; password := ""; loading := false; error := JStr "";
     fieldErrors := ∅ |}.

Definition setEmail (v : string) (s : State) : State :=
  {| email := v; password := password s; loading := loading s;
     error := error s; fieldErrors := fieldErrors s |}.
Definition setPassword (v : string) (s : State) : State :=
  {| email := email s; password := v; loading := loading s;
     error := error s; fieldErrors := fieldErrors s |}.
Definition setLoading (v : bool) (s : State) : State :=
  {| email := email s; password := password s; loading := v;
     error := error s; fieldErrors := fieldErrors s |}.
Definition setError (v : json) (s : State) : State :=
  {| email := email s; password := password s; loading := loading s;
     error := v; fieldErrors := fieldErrors s |}.
Definition setFieldErrors (v : gmap string string) (s : State) : State :=
  {| email := email s; password := password s; loading := loading s;
     error := error s; fieldErrors := v |}.

(** The second argument of [fetch].  [body] is the value handed to
    [JSON.stringify]; the request carries its text. *)
Record RequestInit : Type := {
  method : string;
  headers : gmap string string;
  body : json
}.

(** What the handler asks of its collaborators. *)
Inductive Call : Type :=
  | PreventDefault
  | Fetch (url : string) (init : RequestInit)
  | ResponseJson
  | OnSuccess (cb : callback)
  | SetLocationHref (url : string).

(** The response, as far as the handler reads it: its status, and how the
    promise returned by [response.json()] settles ([Throw] when the body is
    not JSON text). *)
Record Response : Type := {
  status : N;
  json_body : completion json
}.

(** [response.ok]: the status is in the range 200-299. *)
Definition ok (response : Response) : bool :=
  (200 <=? status response)%N && (status response <=? 299)%N.

(** How the promise returned by [fetch] settles. *)
Inductive FetchSettled : Type :=
  | Fulfilled (response : Response)
  | Rejected.

Definition invoke (cb : callback) : M State Call unit :=
  call (OnSuccess cb) ;;;
  match cb with
  | Returns => ret tt
  | Throws => throw
  end.

(** [handleSubmit] up to the [await] of [fetch]: the result is the request
    that was sent, or [None] when the handler returned before sending. *)
Definition handleSubmit_begin (props : SignupFormProps)
    : M State Call (option RequestInit) :=
  call PreventDefault ;;;
  s <- snapshot ;;
  let emailError := validateEmail (email s) in
  let passwordError := validatePassword (password s) in
  if truthy emailError || truthy passwordError then
    set (setFieldErrors {[ "email" := emailError; "password" := passwordError ]}) ;;;
    ret None
  else
    set (setLoading true) ;;;
    set (setError (JStr "")) ;;;
    let init :=
      {| method := "POST";
         headers := {[ "Content-Type" := "application/json" ]};
         body := JObj {[ "email" := JStr (email s);
                         "password" := JStr (password s) ]} |} in
    call (Fetch (apiEndpoint_or_default props) init) ;;;
    ret (Some init).

(** The [try] block from the point where the [await] of [fetch] is
    resumed.  The second [await], of [response.json()], is run through:
    nothing is written to the state between the two. *)
Definition handleSubmit_try (props : SignupFormProps)
    (settled : FetchSettled) : M State Call unit :=
  response <- match settled with
              | Fulfilled r => ret r
              | Rejected => throw
              end ;;
  if ok response then
    match onSuccess props with
    | Some cb => invoke cb
    | None => call (SetLocationHref (loginUrl_or_default props))
    end
  else
    call ResponseJson ;;;
    data <- lift (json_body response) ;;
    data_error <- lift (get_error data) ;;
    set (setError (or_else data_error (JStr "Signup failed"))).

(** [handleSubmit] from the point where the [await] of [fetch] is resumed:
    the [try] block with its [catch] and [finally]. *)
Definition handleSubmit_resume (props : SignupFormProps)
    (settled : FetchSettled) : M State Call unit :=
  try_catch_finally
    (handleSubmit_try props settled)
    (set (setError (JStr "Something went wrong")))
    (set (setLoading false)).

(** A whole run of [handleSubmit] with nothing happening during the
    [await]; [adapter] tells how [fetch] settles for the given request. *)
Definition handleSubmit (props : SignupFormProps)
    (adapter : string -> RequestInit -> FetchSettled) : M State Call unit :=
  sent <- handleSubmit_begin props ;;
  match sent with
  | Some init =>
      handleSubmit_resume props (adapter (apiEndpoint_or_default props) init)
  | None => ret tt
  end.

(** *** The component as a transition system *)

(** The form together with the requests that have not settled. *)
Record System : Type := {
  form : State;
  inflight : list RequestInit
}.

Inductive Event : Type :=
  | ChangeEmail (v : string)
  | ChangePassword (v : string)
  | Submit
  | Settle (i : nat) (settled : FetchSettled).

Definition start : System := {| form := initial; inflight := [] |}.

Definition step (props : SignupFormProps) (sys : System) (ev : Event)
    : option System :=
  match ev with
  | ChangeEmail v =>
      Some {| form := setEmail v (form sys); inflight := inflight sys |}
  | ChangePassword v =>
      Some {| form := setPassword v (form sys); inflight := inflight sys |}
  | Submit =>
      let r := handleSubmit_begin props (form sys) in
      Some {| form := state_of r;
              inflight := match completed r with
                          | Normal (Some init) => inflight sys ++ [init]
                          | _ => inflight sys
                          end |}
  | Settle i settled =>
      match inflight sys !! i with
      | Some _ =>
          Some {| form := state_of (handleSubmit_resume props settled (form sys));
                  inflight := delete i (inflight sys) |}
      | None => None
      end
  end.

Fixpoint run (props : SignupFormProps) (sys : System) (evs : list Event)
    : option System :=
  match evs with
  | [] => Some sys
  | ev :: evs' =>
      match step props sys ev with
      | Some sys' => run props sys' evs'
      | None => None
      end
  end.

Definition reachable (props : SignupFormProps) (sys : System) : Prop :=
  exists evs, run props start evs = Some sys.

(** *** Vocabulary of the statements *)

(** The field values are those of [s]. *)
Definition same_fields (s s' : State) : Prop :=
  email s' = email s /\ password s' = password s.

(** The field values a submit finds when its validation fails: the
    values of the render, if [ev] is a submit and a validator returns a
    message for them. *)
Definition failed_pass (sys : System) (ev : Event) : list (string * string) :=
  match ev with
  | Submit =>
      if truthy (validateEmail (email (form sys)))
         || truthy (validatePassword (password (form sys)))
      then [(email (form sys), password (form sys))]
      else []
  | _ => []
  end.

(** The failed validation passes of a run, oldest first, each with the
    field values it found. *)
Fixpoint failed_passes (props : SignupFormProps) (sys : System)
    (evs : list Event) : list (string * string) :=
  match evs with
  | [] => []
  | ev :: evs' =>
      (failed_pass sys ev
       ++ match step props sys ev with
          | Some sys' => failed_passes props sys' evs'
          | None => []
          end)%list
  end.

End SignupForm.

(** ** The markup returned by the components *)

(** The JSX returned by a component, as a tree: elements with their props
    and children, and the values of the expression containers among the
    children.  [Ev] is the type of what a handler prop makes happen. *)

Module JSX.
Import JS.

Inductive prop (Ev : Type) : Type :=
  | PStr (s : string)
  | PBool (b : bool)
  | POnChange (handler : string -> Ev)
  | POnSubmit (ev : Ev).
Arguments PStr {Ev} s.
Arguments PBool {Ev} b.
Arguments POnChange {Ev} handler.
Arguments POnSubmit {Ev} ev.

Inductive node (Ev : Type) : Type :=
  | Element (tag : string) (props : list (string * prop Ev))
      (children : list (node Ev))
  | Text (s : string)
  | Undefined
  | Value (v : json).
Arguments Element {Ev} tag props children.
Arguments Text {Ev} s.
Arguments Undefined {Ev}.
Arguments Value {Ev} v.

(** [c && n] for a string [c] that may be [undefined]: [c] itself when it
    is falsy, [n] otherwise. *)
Definition and_then {Ev} (c : option string) (n : node Ev) : node Ev :=
  match c with
  | None => Undefined
  | Some s => if truthy s then n else Text s
  end.

(** [c && n] for a JSON value [c]. *)
Definition and_then_value {Ev} (c : json) (n : node Ev) : node Ev :=
  if to_boolean c then n else Value c.

(** [c ? a : b] for a string [c] that may be [undefined]. *)
Definition if_truthy (c : option string) (a b : string) : string :=
  match c with
  | Some s => if truthy s then a else b
  | None => b
  end.

(** *** Reading a tree *)

(** The node and everything below it, in document order. *)
Fixpoint descendants {Ev} (n : node Ev) : list (node Ev) :=
  n :: match n with
       | Element _ _ children => List.flat_map descendants children
       | _ => []
       end.

Fixpoint assoc {A} (name : string) (l : list (string * A)) : option A :=
  match l with
  | [] => None
  | (k, v) :: l' => if String.eqb k name then Some v else assoc name l'
  end.

Definition get_prop {Ev} (name : string) (n : node Ev) : option (prop Ev) :=
  match n with
  | Element _ props _ => assoc name props
  | _ => None
  end.

Definition has_tag {Ev} (tag : string) (n : node Ev) : bool :=
  match n with
  | Element t _ _ => String.eqb t tag
  | _ => false
  end.

Definition has_str_prop {Ev} (name value : string) (n : node Ev) : bool :=
  match get_prop name n with
  | Some (PStr s) => String.eqb s value
  | _ => false
  end.

Definition has_bool_prop {Ev} (name : string) (value : bool) (n : node Ev)
    : bool :=
  match get_prop name n with
  | Some (PBool b) => Bool.eqb b value
  | _ => false
  end.

Definition children_of {Ev} (n : node Ev) : list (node Ev) :=
  match n with
  | Element _ _ children => children
  | _ => []
  end.

(** The elements with the given tag and [id]. *)
Definition by_id {Ev} (tag id : string) (view : node Ev) : list (node Ev) :=
  List.filter (fun n => has_tag tag n && has_str_prop "id" id n)
    (descendants view).

(** The children of every [p] element with the given class. *)
Definition paragraphs {Ev} (className : string) (view : node Ev)
    : list (list (node Ev)) :=
  List.map children_of
    (List.filter (fun n => has_tag "p" n && has_str_prop "className" className n)
       (descendants view)).

(** The submit buttons. *)
Definition submit_buttons {Ev} (view : node Ev) : list (node Ev) :=
  List.filter (fun n => has_tag "button" n && has_str_prop "type" "submit" n)
    (descendants view).

(** No submit button of the view can be pressed: there is one and each is
    disabled.  A browser does not submit a form through a disabled submit
    button, by a click or by the Enter key. *)
Definition submit_disabled {Ev} (view : node Ev) : bool :=
  match submit_buttons view with
  | [] => false
  | buttons => List.forallb (has_bool_prop "disabled" true) buttons
  end.

(** The class of the paragraph under a field and of the one under the
    button, in both components. *)
Definition field_error_class : string := "mt-2 text-sm text-red-500".
Definition top_error_class : string := "text-center text-sm text-red-500".

End JSX.

Module LoginFormView.
Import JS JSX LoginForm.

(** The template literal of an input's [className]. *)
Definition input_className (fieldError : option string) : string :=
  String.append "w-full px-4 py-3 rounded-xl border "
    (String.append
       (if_truthy fieldError
          "border-red-500 focus:ring-red-500"
          "border-silver focus:border-navy focus:ring-navy")
       " focus:outline-none focus:ring-2 focus:ring-opacity-20 transition-all").

(** The [return (...)] of [LoginForm], for the props and the values of the
    state cells of a render. *)
Definition render (props : LoginFormProps) (s : State) : node Event :=
  Element "div"
    [("className", PStr "min-h-screen flex items-center justify-center px-4")]
    [Element "div" [("className", PStr "w-full max-w-md")]
       [Element "h1"
          [("className", PStr "text-3xl font-bold text-navy text-center mb-8")]
          [Text "Welcome Back"];
        Element "form"
          [("onSubmit", POnSubmit Submit); ("className", PStr "space-y-6")]
          [Element "div" []
             [Element "label"
                [("htmlFor", PStr "email");
                 ("className", PStr "block text-sm font-medium text-slate mb-2")]
                [Text "Email"];
              Element "input"
                [("id", PStr "email");
                 ("value", PStr (email s));
                 ("onChange", POnChange ChangeEmail);
                 ("type", PStr "email");
                 ("className", PStr (input_className (fieldErrors s !! "email")));
                 ("placeholder", PStr "you@example.com")]
                [];
              and_then (fieldErrors s !! "email")
                (Element "p" [("className", PStr "mt-2 text-sm text-red-500")]
                   [match fieldErrors s !! "email" with
                    | Some m => Text m
                    | None => Undefined
                    end])];
           Element "div" []
             [Element "label"
                [("htmlFor", PStr "password");
                 ("className", PStr "block text-sm font-medium text-slate mb-2")]
                [Text "Password"];
              Element "input"
                [("id", PStr "password");
                 ("value", PStr (password s));
                 ("onChange", POnChange ChangePassword);
                 ("type", PStr "password");
                 ("className",
                  PStr (input_className (fieldErrors s !! "password")));
                 ("placeholder", PStr "Your password")]
                [];
              and_then (fieldErrors s !! "password")
                (Element "p" [("className", PStr "mt-2 text-sm text-red-500")]
                   [match fieldErrors s !! "password" with
                    | Some m => Text m
                    | None => Undefined
                    end])];
           Element "button"
             [("type", PStr "submit");
              ("disabled", PBool (loading s));
              ("className",
               PStr "w-full px-7 py-3 bg-navy text-ivory text-sm font-semibold rounded-xl hover:bg-slate hover:shadow-lg hover:-translate-y-0.5 transition-all duration-200 disabled:opacity-50 disabled:cursor-not-allowed disabled:hover:translate-y-0 disabled:hover:shadow-none")]
             [Text (if loading s then "Logging in..." else "Log In")];
           and_then (Some (error s))
             (Element "p"
                [("className", PStr "text-center text-sm text-red-500")]
                [Text (error s)]);
           Element "p" [("className", PStr "text-center text-sm text-steel")]
             [Text "Don't have an account?";
              Text " ";
              Element "a"
                [("href", PStr (signupUrl_or_default props));
                 ("className", PStr "text-navy font-medium hover:underline")]
                [Text "Sign up"]]]]].

(** *** The component driven through its markup *)

(** A step of the component when the form can only be submitted through
    the markup: a submit is not delivered while the button is disabled. *)
Definition ui_step (props : LoginFormProps) (sys : System) (ev : Event)
    : option System :=
  match ev with
  | Submit =>
      if submit_disabled (render props (form sys)) then None
      else step props sys Submit
  | _ => step props sys ev
  end.

Fixpoint ui_run (props : LoginFormProps) (sys : System) (evs : list Event)
    : option System :=
  match evs with
  | [] => Some sys
  | ev :: evs' =>
      match ui_step props sys ev with
      | Some sys' => ui_run props sys' evs'
      | None => None
      end
  end.

Definition ui_reachable (props : LoginFormProps) (sys : System) : Prop :=
  exists evs, ui_run props start evs = Some sys.

End LoginFormView.

Module SignupFormView.
Import JS JSX SignupForm.

(** The template literal of an input's [className]. *)
Definition input_className (fieldError : option string) : string :=
  String.append "w-full px-4 py-3 rounded-xl border "
    (String.append
       (if_truthy fieldError
          "border-red-500 focus:ring-red-500"
          "border-silver focus:border-navy focus:ring-navy")
       " focus:outline-none focus:ring-2 focus:ring-opacity-20 transition-all").

(** The [return (...)] of [SignupForm], for the props and the values of the
    state cells of a render. *)
Definition render (props : SignupFormProps) (s : State) : node Event :=
  Element "div"
    [("className", PStr "min-h-screen flex items-center justify-center px-4")]
    [Element "div" [("className", PStr "w-full max-w-md")]
       [Element "h1"
          [("className", PStr "text-3xl font-bold text-navy text-center mb-8")]
          [Text "Create Your Account"];
        Element "form"
          [("onSubmit", POnSubmit Submit); ("className", PStr "space-y-6")]
          [Element "div" []
             [Element "label"
                [("htmlFor", PStr "email");
                 ("className", PStr "block text-sm font-medium text-slate mb-2")]
                [Text "Email"];
              Element "input"
                [("id", PStr "email");
                 ("value", PStr (email s));
                 ("onChange", POnChange ChangeEmail);
                 ("type", PStr "email");
                 ("className", PStr (input_className (fieldErrors s !! "email")));
                 ("placeholder", PStr "you@example.com")]
                [];
              and_then (fieldErrors s !! "email")
                (Element "p" [("className", PStr "mt-2 text-sm text-red-500")]
                   [match fieldErrors s !! "email" with
                    | Some m => Text m
                    | None => Undefined
                    end])];
           Element "div" []
             [Element "label"
                [("htmlFor", PStr "password");
                 ("className", PStr "block text-sm font-medium text-slate mb-2")]
                [Text "Password"];
              Element "input"
                [("id", PStr "password");
                 ("value", PStr (password s));
                 ("onChange", POnChange ChangePassword);
                 ("type", PStr "password");
                 ("className",
                  PStr (input_className (fieldErrors s !! "password")));
                 ("placeholder", PStr "At least 8 characters")]
                [];
              and_then (fieldErrors s !! "password")
                (Element "p" [("className", PStr "mt-2 text-sm text-red-500")]
                   [match fieldErrors s !! "password" with
                    | Some m => Text m
                    | None => Undefined
                    end])];
           Element "button"
             [("type", PStr "submit");
              ("disabled", PBool (loading s));
              ("className",
               PStr "w-full px-7 py-3 bg-navy text-ivory text-sm font-semibold rounded-xl hover:bg-slate hover:shadow-lg hover:-translate-y-0.5 transition-all duration-200 disabled:opacity-50 disabled:cursor-not-allowed disabled:hover:translate-y-0 disabled:hover:shadow-none")]
             [Text (if loading s then "Creating Account..." else "Sign Up")];
           and_then_value (error s)
             (Element "p"
                [("className", PStr "text-center text-sm text-red-500")]
                [Value (error s)]);
           Element "p" [("className", PStr "text-center text-sm text-steel")]
             [Text "Already have an account?";
              Text " ";
              Element "a"
                [("href", PStr (loginUrl_or_default props));
                 ("className", PStr "text-navy font-medium hover:underline")]
                [Text "Log in"]]]]].

(** *** The component driven through its markup *)

(** A step of the component when the form can only be submitted through
    the markup: a submit is not delivered while the button is disabled. *)
Definition ui_step (props : SignupFormProps) (sys : System) (ev : Event)
    : option System :=
  match ev with
  | Submit =>
      if submit_disabled (render props (form sys)) then None
      else step props sys Submit
  | _ => step props sys ev
  end.

Fixpoint ui_run (props : SignupFormProps) (sys : System) (evs : list Event)
    : option System :=
  match evs with
  | [] => Some sys
  | ev :: evs' =>
      match ui_step props sys ev with
      | Some sys' => ui_run props sys' evs'
      | None => None
      end
  end.

Definition ui_reachable (props : SignupFormProps) (sys : System) : Prop :=
  exists evs, ui_run props start evs = Some sys.

End SignupFormView.

(** * Properties *)

(** ** Strings *)

Section StringFacts.
Import JS.

Lemma truthy_true (s : string) : truthy s = true <-> s <> "".
Proof.
  unfold truthy. destruct (String.eqb_spec s ""); simpl; split; congruence.
Qed.

Lemma truthy_false (s : string) : truthy s = false <-> s = "".
Proof.
  unfold truthy. destruct (String.eqb_spec s ""); simpl; split; congruence.
Qed.

Lemma prefix_spec (p s : string) :
  String.prefix p s = true <-> exists post, s = String.append p post.
Proof.
  revert s. induction p as [|c p IH]; intros s; simpl.
  - split; [intros _; now exists s | destruct s; reflexivity].
  - destruct s as [|d s].
    + split; [discriminate | intros [post H]; discriminate H].
    + simpl. destruct (ascii_dec c d) as [->|Hne].
      * rewrite IH. split; intros [post H]; exists post.
        -- now rewrite H.
        -- now injection H.
      * split; [discriminate | intros [post H]; injection H; congruence].
Qed.

Lemma includes_spec (s pat : string) : includes s pat = true <-> occurs pat s.
Proof.
  unfold occurs. induction s as [|c s IH]; cbn [includes].
  - rewrite orb_false_r, prefix_spec. split.
    + intros [post H]. now exists "", post.
    + intros [[|d pre] [post H]]; [now exists post | discriminate H].
  - rewrite orb_true_iff, prefix_spec, IH. split.
    + intros [[post H] | (pre & post & H)].
      * now exists "", post.
      * exists (String c pre), post. simpl. now rewrite H.
    + intros [[|d pre] [post H]].
      * left. now exists post.
      * right. exists pre, post. simpl in H. now injection H.
Qed.

Lemma includes_false (s pat : string) : includes s pat = false <-> ~ occurs pat s.
Proof.
  rewrite <- includes_spec. destruct (includes s pat); split; congruence.
Qed.

End StringFacts.

(** ** Validators *)

Section ValidatorFacts.
Import JS.

(** Both components carry the same [validateEmail]. *)
Lemma validateEmail_same (s : string) :
  SignupForm.validateEmail s = LoginForm.validateEmail s.
Proof. reflexivity. Qed.

(** The three results of [validateEmail], by cases on the input. *)
Lemma validateEmail_cases (s : string) :
  (s = "" /\ LoginForm.validateEmail s = "Email is required")
  \/ (s <> "" /\ (~ occurs "@" s \/ ~ occurs "." s)
      /\ LoginForm.validateEmail s = "Invalid email format")
  \/ (s <> "" /\ occurs "@" s /\ occurs "." s /\ LoginForm.validateEmail s = "").
Proof.
  unfold LoginForm.validateEmail.
  destruct (truthy s) eqn:Hs; simpl.
  - apply truthy_true in Hs. right.
    destruct (includes s "@") eqn:Hat; simpl.
    + destruct (includes s ".") eqn:Hdot; simpl.
      * right. apply includes_spec in Hat, Hdot. auto.
      * left. apply includes_false in Hdot. auto.
    + left. apply includes_false in Hat. auto.
  - apply truthy_false in Hs. left. auto.
Qed.

Lemma occurs_nonempty (pat s : string) : pat <> "" -> occurs pat s -> s <> "".
Proof.
  intros Hpat (pre & post & ->) H.
  destruct pre; [destruct pat; [congruence | discriminate H] | discriminate H].
Qed.

(** C7: for every string lacking "@" or lacking ".", [validateEmail]
    returns a non-empty failure message; for every non-empty string that
    contains both, it returns the empty string.  Both forms. *)
Theorem validateEmail_fails_or_passes (s : string) :
  ((~ occurs "@" s \/ ~ occurs "." s) ->
     LoginForm.validateEmail s <> "" /\ SignupForm.validateEmail s <> "")
  /\ (s <> "" -> occurs "@" s -> occurs "." s ->
        LoginForm.validateEmail s = "" /\ SignupForm.validateEmail s = "").
Proof.
  change (SignupForm.validateEmail s) with (LoginForm.validateEmail s).
  destruct (validateEmail_cases s)
    as [[Hs ->] | [(Hs & Hlack & ->) | (Hs & Hat & Hdot & ->)]].
  - split; [intros _; split; discriminate | congruence].
  - split; [intros _; split; discriminate | tauto].
  - split; [tauto | auto].
Qed.

Lemma validateEmail_fails_or_passes_witness :
  (LoginForm.validateEmail "a.b" <> "" /\ SignupForm.validateEmail "a.b" <> "")
  /\ (LoginForm.validateEmail "a@b.c" = "" /\ SignupForm.validateEmail "a@b.c" = "").
Proof.
  split.
  - apply (proj1 (validateEmail_fails_or_passes "a.b")).
    left. apply includes_false. reflexivity.
  - apply (proj2 (validateEmail_fails_or_passes "a@b.c")).
    + discriminate.
    + apply includes_spec. reflexivity.
    + apply includes_spec. reflexivity.
Defined.

(** C4, as the specification words it, fails: "a@b" holds an "@", lacks
    only the ".", and is rejected with the format message by both forms. *)
Lemma validateEmail_rejects_one_missing :
  "a@b" <> ""
  /\ occurs "@" "a@b"
  /\ ~ occurs "." "a@b"
  /\ LoginForm.validateEmail "a@b" = "Invalid email format"
  /\ SignupForm.validateEmail "a@b" = "Invalid email format".
Proof.
  repeat split.
  - discriminate.
  - apply includes_spec. reflexivity.
  - apply includes_false. reflexivity.
Qed.

(** C4 (amended): for every non-empty input, [validateEmail] returns the
    format failure exactly when the input lacks "@" or lacks "."; an input
    missing either one of the two characters is rejected.  Both forms. *)
Theorem validateEmail_invalid_format_iff (s : string) :
  s <> "" ->
  (LoginForm.validateEmail s = "Invalid email format"
     <-> (~ occurs "@" s \/ ~ occurs "." s))
  /\ (SignupForm.validateEmail s = "Invalid email format"
        <-> (~ occurs "@" s \/ ~ occurs "." s)).
Proof.
  intros Hne.
  change (SignupForm.validateEmail s) with (LoginForm.validateEmail s).
  destruct (validateEmail_cases s)
    as [[Hs _] | [(_ & Hlack & ->) | (_ & Hat & Hdot & ->)]].
  - contradiction.
  - tauto.
  - split; (split; [discriminate | tauto]).
Qed.

Lemma validateEmail_invalid_format_iff_witness :
  (LoginForm.validateEmail "a@b" = "Invalid email format"
     <-> (~ occurs "@" "a@b" \/ ~ occurs "." "a@b"))
  /\ (SignupForm.validateEmail "a@b" = "Invalid email format"
        <-> (~ occurs "@" "a@b" \/ ~ occurs "." "a@b")).
Proof.
  apply (validateEmail_invalid_format_iff "a@b"). discriminate.
Defined.

(** C8: the signup [validatePassword] fails for every password shorter
    than 8 and passes every password of length 8 or more; the login
    [validatePassword] fails for the empty password only, whatever the
    length of the others. *)
Theorem validatePassword_length_rules (p : string) :
  (String.length p < 8 -> SignupForm.validatePassword p <> "")
  /\ (8 <= String.length p -> SignupForm.validatePassword p = "")
  /\ (LoginForm.validatePassword p <> "" <-> p = "")
  /\ (p <> "" -> LoginForm.validatePassword p = "").
Proof.
  unfold SignupForm.validatePassword, LoginForm.validatePassword.
  destruct (truthy p) eqn:Hp; simpl.
  - apply truthy_true in Hp.
    destruct (Nat.ltb_spec (String.length p) 8); repeat split;
      try discriminate; try lia; try congruence.
  - apply truthy_false in Hp. subst p. simpl.
    repeat split; try discriminate; try lia; try congruence.
Qed.

Lemma validatePassword_length_rules_witness :
  SignupForm.validatePassword "1234567" <> ""
  /\ SignupForm.validatePassword "12345678" = ""
  /\ LoginForm.validatePassword "x" = "".
Proof.
  split; [| split].
  - apply (proj1 (validatePassword_length_rules "1234567")). simpl. lia.
  - apply (proj1 (proj2 (validatePassword_length_rules "12345678"))).
    simpl. lia.
  - apply (proj2 (proj2 (proj2 (validatePassword_length_rules "x")))).
    discriminate.
Defined.

End ValidatorFacts.

(** ** The submit handler *)

Section HandlerFacts.
Import JS Handler.

(** Runs the handler combinators, leaving validators and maps folded. *)
Ltac run_handler :=
  cbv beta iota zeta delta
    [LoginForm.handleSubmit LoginForm.handleSubmit_begin
     LoginForm.handleSubmit_resume LoginForm.invoke
     SignupForm.handleSubmit SignupForm.handleSubmit_begin
     SignupForm.handleSubmit_resume SignupForm.handleSubmit_try
     SignupForm.invoke
     bind ret throw call snapshot set lift try_catch_finally
     completed state_of calls_of fst snd app].

Ltac by_validation He Hp :=
  match goal with
  | |- context [truthy ?e || truthy ?p] =>
      destruct (truthy e) eqn:He; destruct (truthy p) eqn:Hp; simpl orb
  end.

(** A failed validation pass of the login form: both messages are stored,
    nothing else is written and [signIn] is not called. *)
Lemma login_invalid_submit props adapter (s : LoginForm.State) :
  LoginForm.validateEmail (LoginForm.email s) <> ""
  \/ LoginForm.validatePassword (LoginForm.password s) <> "" ->
  LoginForm.handleSubmit props adapter s =
    (Normal tt,
     LoginForm.setFieldErrors
       {[ "email" := LoginForm.validateEmail (LoginForm.email s);
          "password" := LoginForm.validatePassword (LoginForm.password s) ]} s,
     [LoginForm.PreventDefault]).
Proof.
  intros H. run_handler. by_validation He Hp; try reflexivity.
  apply truthy_false in He, Hp. tauto.
Qed.

(** The same for the signup form: no request is sent. *)
Lemma signup_invalid_submit props adapter (s : SignupForm.State) :
  SignupForm.validateEmail (SignupForm.email s) <> ""
  \/ SignupForm.validatePassword (SignupForm.password s) <> "" ->
  SignupForm.handleSubmit props adapter s =
    (Normal tt,
     SignupForm.setFieldErrors
       {[ "email" := SignupForm.validateEmail (SignupForm.email s);
          "password" := SignupForm.validatePassword (SignupForm.password s) ]} s,
     [SignupForm.PreventDefault]).
Proof.
  intros H. run_handler. by_validation He Hp; try reflexivity.
  apply truthy_false in He, Hp. tauto.
Qed.


(** A passed validation pass of the login form: the loading flag is set,
    the top-level error emptied and [signIn] called with the two values. *)
Lemma login_valid_begin (s : LoginForm.State) :
  LoginForm.validateEmail (LoginForm.email s) = "" ->
  LoginForm.validatePassword (LoginForm.password s) = "" ->
  let options :=
    {| LoginForm.opt_email := LoginForm.email s;
       LoginForm.opt_password := LoginForm.password s;
       LoginForm.opt_redirect := false |} in
  LoginForm.handleSubmit_begin s =
    (Normal (Some options),
     LoginForm.setError "" (LoginForm.setLoading true s),
     [LoginForm.PreventDefault; LoginForm.SignIn "credentials" options]).
Proof.
  intros He Hp. run_handler. rewrite He, Hp. reflexivity.
Qed.

Lemma signup_valid_begin props (s : SignupForm.State) :
  SignupForm.validateEmail (SignupForm.email s) = "" ->
  SignupForm.validatePassword (SignupForm.password s) = "" ->
  let init :=
    {| SignupForm.method := "POST";
       SignupForm.headers := {[ "Content-Type" := "application/json" ]};
       SignupForm.body :=
         JObj {[ "email" := JStr (SignupForm.email s);
                 "password" := JStr (SignupForm.password s) ]} |} in
  SignupForm.handleSubmit_begin props s =
    (Normal (Some init),
     SignupForm.setError (JStr "") (SignupForm.setLoading true s),
     [SignupForm.PreventDefault;
      SignupForm.Fetch (SignupForm.apiEndpoint_or_default props) init]).
Proof.
  intros He Hp. run_handler. rewrite He, Hp. reflexivity.
Qed.

(** What the first half of the handler does by cases on the verdict. *)
Lemma login_begin_cases (s : LoginForm.State) :
  let e := LoginForm.validateEmail (LoginForm.email s) in
  let p := LoginForm.validatePassword (LoginForm.password s) in
  ((e <> "" \/ p <> "")
   /\ LoginForm.handleSubmit_begin s =
       (Normal None,
        LoginForm.setFieldErrors {[ "email" := e; "password" := p ]} s,
        [LoginForm.PreventDefault]))
  \/ (e = "" /\ p = ""
      /\ exists options,
          LoginForm.handleSubmit_begin s =
            (Normal (Some options),
             LoginForm.setError "" (LoginForm.setLoading true s),
             [LoginForm.PreventDefault; LoginForm.SignIn "credentials" options])).
Proof.
  intros e p.
  destruct (truthy e) eqn:He; [| destruct (truthy p) eqn:Hp].
  - left. apply truthy_true in He as He'. split; [auto |].
    run_handler. fold e. rewrite He. reflexivity.
  - left. apply truthy_true in Hp as Hp'. split; [auto |].
    run_handler. fold e p. rewrite He, Hp. reflexivity.
  - right. apply truthy_false in He, Hp. repeat split; try assumption.
    eexists. apply login_valid_begin; assumption.
Qed.

Lemma signup_begin_cases props (s : SignupForm.State) :
  let e := SignupForm.validateEmail (SignupForm.email s) in
  let p := SignupForm.validatePassword (SignupForm.password s) in
  ((e <> "" \/ p <> "")
   /\ SignupForm.handleSubmit_begin props s =
       (Normal None,
        SignupForm.setFieldErrors {[ "email" := e; "password" := p ]} s,
        [SignupForm.PreventDefault]))
  \/ (e = "" /\ p = ""
      /\ exists init,
          SignupForm.handleSubmit_begin props s =
            (Normal (Some init),
             SignupForm.setError (JStr "") (SignupForm.setLoading true s),
             [SignupForm.PreventDefault;
              SignupForm.Fetch (SignupForm.apiEndpoint_or_default props) init])).
Proof.
  intros e p.
  destruct (truthy e) eqn:He; [| destruct (truthy p) eqn:Hp].
  - left. apply truthy_true in He as He'. split; [auto |].
    run_handler. fold e. rewrite He. reflexivity.
  - left. apply truthy_true in Hp as Hp'. split; [auto |].
    run_handler. fold e p. rewrite He, Hp. reflexivity.
  - right. apply truthy_false in He, Hp. repeat split; try assumption.
    eexists. apply signup_valid_begin; assumption.
Qed.

(** Neither half of either handler writes the field values; the second
    half leaves the field errors alone as well. *)
Lemma login_begin_fields (s : LoginForm.State) :
  LoginForm.same_fields s (state_of (LoginForm.handleSubmit_begin s)).
Proof.
  destruct (login_begin_cases s) as [[_ ->] | (_ & _ & options & ->)];
    split; reflexivity.
Qed.

Lemma signup_begin_fields props (s : SignupForm.State) :
  SignupForm.same_fields s (state_of (SignupForm.handleSubmit_begin props s)).
Proof.
  destruct (signup_begin_cases props s) as [[_ ->] | (_ & _ & init & ->)];
    split; reflexivity.
Qed.

Lemma login_resume_frame props settled (s : LoginForm.State) :
  let s' := state_of (LoginForm.handleSubmit_resume props settled s) in
  LoginForm.same_fields s s'
  /\ LoginForm.fieldErrors s' = LoginForm.fieldErrors s.
Proof.
  run_handler. destruct settled as [result|]; [| repeat split].
  destruct (LoginForm.result_error_truthy result); [repeat split |].
  destruct (LoginForm.onSuccess props) as [[|]|]; repeat split.
Qed.

Lemma signup_resume_frame props settled (s : SignupForm.State) :
  let s' := state_of (SignupForm.handleSubmit_resume props settled s) in
  SignupForm.same_fields s s'
  /\ SignupForm.fieldErrors s' = SignupForm.fieldErrors s.
Proof.
  run_handler. destruct settled as [response|]; [| repeat split].
  destruct (SignupForm.ok response).
  - destruct (SignupForm.onSuccess props) as [[|]|]; repeat split.
  - destruct (SignupForm.json_body response) as [data|]; [| repeat split].
    destruct (get_error data); repeat split.
Qed.

(** A whole run of either handler leaves the two field values alone. *)
Lemma login_handleSubmit_fields props adapter (s : LoginForm.State) :
  LoginForm.same_fields s (state_of (LoginForm.handleSubmit props adapter s)).
Proof.
  destruct (login_begin_cases s) as [[H _] | (He & Hp & _)].
  - rewrite login_invalid_submit by exact H. split; reflexivity.
  - pose proof (login_valid_begin s He Hp) as Hb. cbv zeta in Hb.
    unfold LoginForm.handleSubmit, bind. rewrite Hb.
    match goal with
    | |- context [LoginForm.handleSubmit_resume ?a ?b ?c] =>
        pose proof (login_resume_frame a b c) as [[H1 H2] _];
        destruct (LoginForm.handleSubmit_resume a b c) as [[r s2] t2]
    end.
    split; [exact H1 | exact H2].
Qed.

Lemma signup_handleSubmit_fields props adapter (s : SignupForm.State) :
  SignupForm.same_fields s (state_of (SignupForm.handleSubmit props adapter s)).
Proof.
  destruct (signup_begin_cases props s) as [[H _] | (He & Hp & _)].
  - rewrite signup_invalid_submit by exact H. split; reflexivity.
  - pose proof (signup_valid_begin props s He Hp) as Hb. cbv zeta in Hb.
    unfold SignupForm.handleSubmit, bind. rewrite Hb.
    match goal with
    | |- context [SignupForm.handleSubmit_resume ?a ?b ?c] =>
        pose proof (signup_resume_frame a b c) as [[H1 H2] _];
        destruct (SignupForm.handleSubmit_resume a b c) as [[r s2] t2]
    end.
    split; [exact H1 | exact H2].
Qed.

(** *** Failed validation (C5) *)

(** C5: when a validator returns a non-empty message on submit, the
    controller stores the messages of both fields at once and returns
    without calling the adapter; for email "bad" and an empty password the
    stored field errors are email: "Invalid email format", password:
    "Password is required", and the adapter is not called.  Both forms. *)
Theorem invalid_submit_records_every_field :
  (forall props adapter (s : LoginForm.State),
     LoginForm.validateEmail (LoginForm.email s) <> ""
     \/ LoginForm.validatePassword (LoginForm.password s) <> "" ->
     LoginForm.handleSubmit props adapter s =
       (Normal tt,
        LoginForm.setFieldErrors
          {[ "email" := LoginForm.validateEmail (LoginForm.email s);
             "password" := LoginForm.validatePassword (LoginForm.password s) ]} s,
        [LoginForm.PreventDefault]))
  /\ (forall props adapter (s : SignupForm.State),
        SignupForm.validateEmail (SignupForm.email s) <> ""
        \/ SignupForm.validatePassword (SignupForm.password s) <> "" ->
        SignupForm.handleSubmit props adapter s =
          (Normal tt,
           SignupForm.setFieldErrors
             {[ "email" := SignupForm.validateEmail (SignupForm.email s);
                "password" := SignupForm.validatePassword (SignupForm.password s) ]} s,
           [SignupForm.PreventDefault]))
  /\ (forall props adapter (s : LoginForm.State),
        LoginForm.email s = "bad" -> LoginForm.password s = "" ->
        LoginForm.fieldErrors (state_of (LoginForm.handleSubmit props adapter s))
          = {[ "email" := "Invalid email format";
               "password" := "Password is required" ]}
        /\ calls_of (LoginForm.handleSubmit props adapter s)
            = [LoginForm.PreventDefault])
  /\ (forall props adapter (s : SignupForm.State),
        SignupForm.email s = "bad" -> SignupForm.password s = "" ->
        SignupForm.fieldErrors (state_of (SignupForm.handleSubmit props adapter s))
          = {[ "email" := "Invalid email format";
               "password" := "Password is required" ]}
        /\ calls_of (SignupForm.handleSubmit props adapter s)
            = [SignupForm.PreventDefault]).
Proof.
  split; [exact login_invalid_submit |].
  split; [exact signup_invalid_submit |].
  split; intros props adapter s He Hp.
  - rewrite login_invalid_submit by (rewrite Hp; right; discriminate).
    rewrite He, Hp. split; reflexivity.
  - rewrite signup_invalid_submit by (rewrite Hp; right; discriminate).
    rewrite He, Hp. split; reflexivity.
Qed.

Lemma invalid_submit_records_every_field_witness :
  LoginForm.handleSubmit
    {| LoginForm.onSuccess := None; LoginForm.redirectUrl := None;
       LoginForm.signupUrl := None |}
    (fun _ => LoginForm.Rejected)
    (LoginForm.setEmail "bad" LoginForm.initial)
  = (Normal tt,
     LoginForm.setFieldErrors
       {[ "email" := LoginForm.validateEmail "bad";
          "password" := LoginForm.validatePassword "" ]}
       (LoginForm.setEmail "bad" LoginForm.initial),
     [LoginForm.PreventDefault])
  /\ calls_of
       (SignupForm.handleSubmit
          {| SignupForm.apiEndpoint := None; SignupForm.onSuccess := None;
             SignupForm.loginUrl := None |}
          (fun _ _ => SignupForm.Rejected)
          (SignupForm.setEmail "bad" SignupForm.initial))
     = [SignupForm.PreventDefault].
Proof.
  split.
  - apply (proj1 invalid_submit_records_every_field).
    left. discriminate.
  - apply (proj2 (proj2 (proj2 invalid_submit_records_every_field)));
      reflexivity.
Defined.

(** *** Passed validation and the field errors (C1) *)

(** Only a failed validation pass writes the field errors. *)
Lemma login_step_field_errors props sys ev sys' :
  LoginForm.step props sys ev = Some sys' ->
  LoginForm.fieldErrors (LoginForm.form sys')
    <> LoginForm.fieldErrors (LoginForm.form sys) ->
  ev = LoginForm.Submit
  /\ (LoginForm.validateEmail (LoginForm.email (LoginForm.form sys)) <> ""
      \/ LoginForm.validatePassword (LoginForm.password (LoginForm.form sys)) <> "").
Proof.
  destruct ev as [v | v | | i settled]; simpl; intros Hstep Hneq.
  - injection Hstep as <-. now contradict Hneq.
  - injection Hstep as <-. now contradict Hneq.
  - injection Hstep as <-. simpl in Hneq. split; [reflexivity |].
    destruct (login_begin_cases (LoginForm.form sys))
      as [[H _] | (_ & _ & options & Hb)]; [exact H |].
    rewrite Hb in Hneq. now contradict Hneq.
  - destruct (LoginForm.inflight sys !! i); [| discriminate].
    injection Hstep as <-. simpl in Hneq.
    now destruct (login_resume_frame props settled (LoginForm.form sys)).
Qed.

Lemma signup_step_field_errors props sys ev sys' :
  SignupForm.step props sys ev = Some sys' ->
  SignupForm.fieldErrors (SignupForm.form sys')
    <> SignupForm.fieldErrors (SignupForm.form sys) ->
  ev = SignupForm.Submit
  /\ (SignupForm.validateEmail (SignupForm.email (SignupForm.form sys)) <> ""
      \/ SignupForm.validatePassword (SignupForm.password (SignupForm.form sys)) <> "").
Proof.
  destruct ev as [v | v | | i settled]; simpl; intros Hstep Hneq.
  - injection Hstep as <-. now contradict Hneq.
  - injection Hstep as <-. now contradict Hneq.
  - injection Hstep as <-. simpl in Hneq. split; [reflexivity |].
    destruct (signup_begin_cases props (SignupForm.form sys))
      as [[H _] | (_ & _ & init & Hb)]; [exact H |].
    rewrite Hb in Hneq. now contradict Hneq.
  - destruct (SignupForm.inflight sys !! i); [| discriminate].
    injection Hstep as <-. simpl in Hneq.
    now destruct (signup_resume_frame props settled (SignupForm.form sys)).
Qed.

(** C1, as the specification words it, fails: after a failed pass has
    stored its messages and the fields have been corrected, the next submit
    passes validation and calls the adapter while the stale field errors
    are still in place.  Both forms. *)
Lemma valid_submit_leaves_stale_errors :
  (exists sys,
     LoginForm.run
       {| LoginForm.onSuccess := None; LoginForm.redirectUrl := None;
          LoginForm.signupUrl := None |}
       LoginForm.start
       [LoginForm.ChangeEmail "bad"; LoginForm.Submit;
        LoginForm.ChangeEmail "a@b.c"; LoginForm.ChangePassword "pw"]
     = Some sys
     /\ LoginForm.validateEmail (LoginForm.email (LoginForm.form sys)) = ""
     /\ LoginForm.validatePassword (LoginForm.password (LoginForm.form sys)) = ""
     /\ calls_of (LoginForm.handleSubmit_begin (LoginForm.form sys))
        = [LoginForm.PreventDefault;
           LoginForm.SignIn "credentials"
             {| LoginForm.opt_email := "a@b.c"; LoginForm.opt_password := "pw";
                LoginForm.opt_redirect := false |}]
     /\ LoginForm.fieldErrors
          (state_of (LoginForm.handleSubmit_begin (LoginForm.form sys)))
        !! "email" = Some "Invalid email format")
  /\ (exists sys,
        SignupForm.run
          {| SignupForm.apiEndpoint := None; SignupForm.onSuccess := None;
             SignupForm.loginUrl := None |}
          SignupForm.start
          [SignupForm.ChangeEmail "bad"; SignupForm.Submit;
           SignupForm.ChangeEmail "a@b.c";
           SignupForm.ChangePassword "longenough1"]
        = Some sys
        /\ SignupForm.validateEmail (SignupForm.email (SignupForm.form sys)) = ""
        /\ SignupForm.validatePassword
             (SignupForm.password (SignupForm.form sys)) = ""
        /\ (exists init,
              calls_of
                (SignupForm.handleSubmit_begin
                   {| SignupForm.apiEndpoint := None;
                      SignupForm.onSuccess := None;
                      SignupForm.loginUrl := None |}
                   (SignupForm.form sys))
              = [SignupForm.PreventDefault;
                 SignupForm.Fetch "/api/auth/signup" init])
        /\ SignupForm.fieldErrors
             (state_of
                (SignupForm.handleSubmit_begin
                   {| SignupForm.apiEndpoint := None;
                      SignupForm.onSuccess := None;
                      SignupForm.loginUrl := None |}
                   (SignupForm.form sys)))
           !! "email" = Some "Invalid email format").
Proof.
  split; (eexists; split; [reflexivity |]).
  - repeat split; vm_compute; reflexivity.
  - split; [reflexivity |]. split; [reflexivity |].
    split; [eexists; reflexivity | vm_compute; reflexivity].
Qed.

(** C1 (amended): a submit attempt in which both validators return the
    empty string leaves the field-errors map as it was, whatever it held,
    while it sets the loading flag, empties the top-level error and calls
    the adapter; and the field-errors map is written by no step other than
    a submit whose validation fails.  Both forms. *)
Theorem valid_submit_keeps_field_errors :
  (forall s : LoginForm.State,
     LoginForm.validateEmail (LoginForm.email s) = "" ->
     LoginForm.validatePassword (LoginForm.password s) = "" ->
     LoginForm.fieldErrors (state_of (LoginForm.handleSubmit_begin s))
       = LoginForm.fieldErrors s
     /\ LoginForm.loading (state_of (LoginForm.handleSubmit_begin s)) = true
     /\ LoginForm.error (state_of (LoginForm.handleSubmit_begin s)) = ""
     /\ calls_of (LoginForm.handleSubmit_begin s)
        = [LoginForm.PreventDefault;
           LoginForm.SignIn "credentials"
             {| LoginForm.opt_email := LoginForm.email s;
                LoginForm.opt_password := LoginForm.password s;
                LoginForm.opt_redirect := false |}])
  /\ (forall props (s : SignupForm.State),
        SignupForm.validateEmail (SignupForm.email s) = "" ->
        SignupForm.validatePassword (SignupForm.password s) = "" ->
        SignupForm.fieldErrors (state_of (SignupForm.handleSubmit_begin props s))
          = SignupForm.fieldErrors s
        /\ SignupForm.loading (state_of (SignupForm.handleSubmit_begin props s))
           = true
        /\ SignupForm.error (state_of (SignupForm.handleSubmit_begin props s))
           = JStr ""
        /\ calls_of (SignupForm.handleSubmit_begin props s)
           = [SignupForm.PreventDefault;
              SignupForm.Fetch (SignupForm.apiEndpoint_or_default props)
                {| SignupForm.method := "POST";
                   SignupForm.headers :=
                     {[ "Content-Type" := "application/json" ]};
                   SignupForm.body :=
                     JObj {[ "email" := JStr (SignupForm.email s);
                             "password" := JStr (SignupForm.password s) ]} |}])
  /\ (forall props sys ev sys',
        LoginForm.step props sys ev = Some sys' ->
        LoginForm.fieldErrors (LoginForm.form sys')
          <> LoginForm.fieldErrors (LoginForm.form sys) ->
        ev = LoginForm.Submit
        /\ (LoginForm.validateEmail (LoginForm.email (LoginForm.form sys)) <> ""
            \/ LoginForm.validatePassword
                 (LoginForm.password (LoginForm.form sys)) <> ""))
  /\ (forall props sys ev sys',
        SignupForm.step props sys ev = Some sys' ->
        SignupForm.fieldErrors (SignupForm.form sys')
          <> SignupForm.fieldErrors (SignupForm.form sys) ->
        ev = SignupForm.Submit
        /\ (SignupForm.validateEmail
              (SignupForm.email (SignupForm.form sys)) <> ""
            \/ SignupForm.validatePassword
                 (SignupForm.password (SignupForm.form sys)) <> "")).
Proof.
  split; [| split; [| split]].
  - intros s He Hp. rewrite (login_valid_begin s He Hp). repeat split.
  - intros props s He Hp. rewrite (signup_valid_begin props s He Hp).
    repeat split.
  - exact login_step_field_errors.
  - exact signup_step_field_errors.
Qed.

Lemma valid_submit_keeps_field_errors_witness :
  (LoginForm.fieldErrors
     (state_of
        (LoginForm.handleSubmit_begin
           (LoginForm.setFieldErrors
              {[ "email" := "Invalid email format"; "password" := "" ]}
              (LoginForm.setPassword "pw"
                 (LoginForm.setEmail "a@b.c" LoginForm.initial)))))
   = {[ "email" := "Invalid email format"; "password" := "" ]}
   /\ SignupForm.fieldErrors
        (state_of
           (SignupForm.handleSubmit_begin
              {| SignupForm.apiEndpoint := None; SignupForm.onSuccess := None;
                 SignupForm.loginUrl := None |}
              (SignupForm.setFieldErrors
                 {[ "email" := "Invalid email format"; "password" := "" ]}
                 (SignupForm.setPassword "longenough1"
                    (SignupForm.setEmail "a@b.c" SignupForm.initial)))))
      = {[ "email" := "Invalid email format"; "password" := "" ]})
  /\ (LoginForm.Submit = LoginForm.Submit
      /\ (LoginForm.validateEmail "bad" <> ""
          \/ LoginForm.validatePassword "" <> ""))
  /\ (SignupForm.Submit = SignupForm.Submit
      /\ (SignupForm.validateEmail "bad" <> ""
          \/ SignupForm.validatePassword "" <> "")).
Proof.
  pose proof valid_submit_keeps_field_errors as (Hl & Hs & Hlstep & Hsstep).
  split; [split |split].
  - apply Hl; reflexivity.
  - apply Hs; reflexivity.
  - apply (Hlstep
             {| LoginForm.onSuccess := None; LoginForm.redirectUrl := None;
                LoginForm.signupUrl := None |}
             {| LoginForm.form := LoginForm.setEmail "bad" LoginForm.initial;
                LoginForm.inflight := [] |}
             LoginForm.Submit
             {| LoginForm.form :=
                  LoginForm.setFieldErrors
                    {[ "email" := "Invalid email format";
                       "password" := "Password is required" ]}
                    (LoginForm.setEmail "bad" LoginForm.initial);
                LoginForm.inflight := [] |}).
    + reflexivity.
    + simpl. intros H. apply (f_equal (fun m => m !! "email")) in H.
      vm_compute in H. discriminate H.
  - apply (Hsstep
             {| SignupForm.apiEndpoint := None; SignupForm.onSuccess := None;
                SignupForm.loginUrl := None |}
             {| SignupForm.form := SignupForm.setEmail "bad" SignupForm.initial;
                SignupForm.inflight := [] |}
             SignupForm.Submit
             {| SignupForm.form :=
                  SignupForm.setFieldErrors
                    {[ "email" := "Invalid email format";
                       "password" := "Password is required" ]}
                    (SignupForm.setEmail "bad" SignupForm.initial);
                SignupForm.inflight := [] |}).
    + reflexivity.
    + simpl. intros H. apply (f_equal (fun m => m !! "email")) in H.
      vm_compute in H. discriminate H.
Defined.

(** *** The field errors in reachable states (C3) *)

Lemma login_failed_pass_cases (sys : LoginForm.System) ev :
  (exists e p, LoginForm.failed_pass sys ev = [(e, p)]
               /\ ev = LoginForm.Submit
               /\ e = LoginForm.email (LoginForm.form sys)
               /\ p = LoginForm.password (LoginForm.form sys)
               /\ (LoginForm.validateEmail e <> ""
                   \/ LoginForm.validatePassword p <> ""))
  \/ (LoginForm.failed_pass sys ev = []
      /\ (ev = LoginForm.Submit ->
          LoginForm.validateEmail (LoginForm.email (LoginForm.form sys)) = ""
          /\ LoginForm.validatePassword (LoginForm.password (LoginForm.form sys)) = "")).
Proof.
  destruct ev as [v | v | | i settled]; simpl;
    try (right; split; [reflexivity | discriminate]).
  destruct (truthy (LoginForm.validateEmail _)) eqn:He;
    [| destruct (truthy (LoginForm.validatePassword _)) eqn:Hp]; simpl.
  - left. apply truthy_true in He. eauto 10.
  - left. apply truthy_true in Hp. eauto 10.
  - right. apply truthy_false in He, Hp. auto.
Qed.

(** Along a run the field errors are those of its last failed pass, and
    those of its first state when no pass failed. *)
Lemma login_run_field_errors props evs : forall sys sys',
  LoginForm.run props sys evs = Some sys' ->
  match last (LoginForm.failed_passes props sys evs) with
  | None =>
      LoginForm.fieldErrors (LoginForm.form sys')
      = LoginForm.fieldErrors (LoginForm.form sys)
  | Some (e, p) =>
      LoginForm.fieldErrors (LoginForm.form sys')
      = {[ "email" := LoginForm.validateEmail e;
           "password" := LoginForm.validatePassword p ]}
      /\ (LoginForm.validateEmail e <> "" \/ LoginForm.validatePassword p <> "")
  end.
Proof.
  induction evs as [|ev evs IH]; intros sys sys' Hrun; simpl in Hrun.
  - injection Hrun as <-. reflexivity.
  - destruct (LoginForm.step props sys ev) as [sys1|] eqn:Hstep; [| discriminate].
    specialize (IH _ _ Hrun).
    cbn [LoginForm.failed_passes]. rewrite Hstep, last_app.
    destruct (last (LoginForm.failed_passes props sys1 evs)) as [[e p]|];
      [exact IH |].
    rewrite IH.
    destruct (login_failed_pass_cases sys ev)
      as [(e & p & -> & -> & -> & -> & Hfail) | [-> Hpass]]; simpl.
    + simpl in Hstep. injection Hstep as <-. simpl.
      destruct (login_begin_cases (LoginForm.form sys))
        as [[_ ->] | (He & Hp & _)]; [split; [reflexivity | exact Hfail] |].
      rewrite He, Hp in Hfail. destruct Hfail as [[] | []]; reflexivity.
    + destruct ev as [v | v | | i settled]; simpl in Hstep.
      * now injection Hstep as <-.
      * now injection Hstep as <-.
      * injection Hstep as <-. simpl.
        destruct (Hpass eq_refl) as [He Hp].
        destruct (login_begin_cases (LoginForm.form sys))
          as [[Hfail _] | (_ & _ & options & ->)]; [| reflexivity].
        rewrite He, Hp in Hfail. destruct Hfail as [[] | []]; reflexivity.
      * destruct (LoginForm.inflight sys !! i); [| discriminate].
        injection Hstep as <-. simpl.
        now destruct (login_resume_frame props settled (LoginForm.form sys)).
Qed.

Lemma signup_failed_pass_cases (sys : SignupForm.System) ev :
  (exists e p, SignupForm.failed_pass sys ev = [(e, p)]
               /\ ev = SignupForm.Submit
               /\ e = SignupForm.email (SignupForm.form sys)
               /\ p = SignupForm.password (SignupForm.form sys)
               /\ (SignupForm.validateEmail e <> ""
                   \/ SignupForm.validatePassword p <> ""))
  \/ (SignupForm.failed_pass sys ev = []
      /\ (ev = SignupForm.Submit ->
          SignupForm.validateEmail (SignupForm.email (SignupForm.form sys)) = ""
          /\ SignupForm.validatePassword (SignupForm.password (SignupForm.form sys)) = "")).
Proof.
  destruct ev as [v | v | | i settled]; simpl;
    try (right; split; [reflexivity | discriminate]).
  destruct (truthy (SignupForm.validateEmail _)) eqn:He;
    [| destruct (truthy (SignupForm.validatePassword _)) eqn:Hp]; simpl.
  - left. apply truthy_true in He. eauto 10.
  - left. apply truthy_true in Hp. eauto 10.
  - right. apply truthy_false in He, Hp. auto.
Qed.

(** Along a run the field errors are those of its last failed pass, and
    those of its first state when no pass failed. *)
Lemma signup_run_field_errors props evs : forall sys sys',
  SignupForm.run props sys evs = Some sys' ->
  match last (SignupForm.failed_passes props sys evs) with
  | None =>
      SignupForm.fieldErrors (SignupForm.form sys')
      = SignupForm.fieldErrors (SignupForm.form sys)
  | Some (e, p) =>
      SignupForm.fieldErrors (SignupForm.form sys')
      = {[ "email" := SignupForm.validateEmail e;
           "password" := SignupForm.validatePassword p ]}
      /\ (SignupForm.validateEmail e <> "" \/ SignupForm.validatePassword p <> "")
  end.
Proof.
  induction evs as [|ev evs IH]; intros sys sys' Hrun; simpl in Hrun.
  - injection Hrun as <-. reflexivity.
  - destruct (SignupForm.step props sys ev) as [sys1|] eqn:Hstep; [| discriminate].
    specialize (IH _ _ Hrun).
    cbn [SignupForm.failed_passes]. rewrite Hstep, last_app.
    destruct (last (SignupForm.failed_passes props sys1 evs)) as [[e p]|];
      [exact IH |].
    rewrite IH.
    destruct (signup_failed_pass_cases sys ev)
      as [(e & p & -> & -> & -> & -> & Hfail) | [-> Hpass]]; simpl.
    + simpl in Hstep. injection Hstep as <-. simpl.
      destruct (signup_begin_cases props (SignupForm.form sys))
        as [[_ ->] | (He & Hp & _)]; [split; [reflexivity | exact Hfail] |].
      rewrite He, Hp in Hfail. destruct Hfail as [[] | []]; reflexivity.
    + destruct ev as [v | v | | i settled]; simpl in Hstep.
      * now injection Hstep as <-.
      * now injection Hstep as <-.
      * injection Hstep as <-. simpl.
        destruct (Hpass eq_refl) as [He Hp].
        destruct (signup_begin_cases props (SignupForm.form sys))
          as [[Hfail _] | (_ & _ & init & ->)]; [| reflexivity].
        rewrite He, Hp in Hfail. destruct Hfail as [[] | []]; reflexivity.
      * destruct (SignupForm.inflight sys !! i); [| discriminate].
        injection Hstep as <-. simpl.
        now destruct (signup_resume_frame props settled (SignupForm.form sys)).
Qed.

(** C3, as the specification words it, fails in reachable states of both
    forms: after a submit with email "bad" and a good password, the
    password passes validation and yet has an entry, carrying the empty
    message; and once the email is corrected its entry stays, though the
    field no longer fails validation. *)
Lemma passing_field_keeps_an_entry :
  (exists sys,
     LoginForm.run
       {| LoginForm.onSuccess := None; LoginForm.redirectUrl := None;
          LoginForm.signupUrl := None |}
       LoginForm.start
       [LoginForm.ChangeEmail "bad"; LoginForm.ChangePassword "pw";
        LoginForm.Submit; LoginForm.ChangeEmail "a@b.c"]
     = Some sys
     /\ LoginForm.validatePassword (LoginForm.password (LoginForm.form sys)) = ""
     /\ LoginForm.fieldErrors (LoginForm.form sys) !! "password" = Some ""
     /\ LoginForm.validateEmail (LoginForm.email (LoginForm.form sys)) = ""
     /\ LoginForm.fieldErrors (LoginForm.form sys) !! "email"
        = Some "Invalid email format")
  /\ (exists sys,
        SignupForm.run
          {| SignupForm.apiEndpoint := None; SignupForm.onSuccess := None;
             SignupForm.loginUrl := None |}
          SignupForm.start
          [SignupForm.ChangeEmail "bad";
           SignupForm.ChangePassword "longenough1";
           SignupForm.Submit; SignupForm.ChangeEmail "a@b.c"]
        = Some sys
        /\ SignupForm.validatePassword
             (SignupForm.password (SignupForm.form sys)) = ""
        /\ SignupForm.fieldErrors (SignupForm.form sys) !! "password" = Some ""
        /\ SignupForm.validateEmail (SignupForm.email (SignupForm.form sys)) = ""
        /\ SignupForm.fieldErrors (SignupForm.form sys) !! "email"
           = Some "Invalid email format").
Proof.
  split; (eexists; split; [reflexivity |]); repeat split;
    vm_compute; reflexivity.
Qed.

(** C3 (amended): in every state reachable by the form controller, the
    field-errors mapping is empty when no validation pass of the run has
    failed, and otherwise is what the last failed pass stored: an entry for
    each of the two fields, holding the validators' messages for the values
    the fields held at that pass, at least one of them non-empty.  A field
    that passed in that pass has its entry present with the empty message;
    and an edit of a field changes the field and leaves every entry as it
    was.  Both forms. *)
Theorem field_errors_record_last_failed_pass :
  (forall props evs sys,
     LoginForm.run props LoginForm.start evs = Some sys ->
     match last (LoginForm.failed_passes props LoginForm.start evs) with
     | None => LoginForm.fieldErrors (LoginForm.form sys) = ∅
     | Some (e, p) =>
         LoginForm.fieldErrors (LoginForm.form sys)
         = {[ "email" := LoginForm.validateEmail e;
              "password" := LoginForm.validatePassword p ]}
         /\ LoginForm.fieldErrors (LoginForm.form sys) !! "email"
            = Some (LoginForm.validateEmail e)
         /\ LoginForm.fieldErrors (LoginForm.form sys) !! "password"
            = Some (LoginForm.validatePassword p)
         /\ (LoginForm.validateEmail e <> ""
             \/ LoginForm.validatePassword p <> "")
     end)
  /\ (forall props evs sys,
        SignupForm.run props SignupForm.start evs = Some sys ->
        match last (SignupForm.failed_passes props SignupForm.start evs) with
        | None => SignupForm.fieldErrors (SignupForm.form sys) = ∅
        | Some (e, p) =>
            SignupForm.fieldErrors (SignupForm.form sys)
            = {[ "email" := SignupForm.validateEmail e;
                 "password" := SignupForm.validatePassword p ]}
            /\ SignupForm.fieldErrors (SignupForm.form sys) !! "email"
               = Some (SignupForm.validateEmail e)
            /\ SignupForm.fieldErrors (SignupForm.form sys) !! "password"
               = Some (SignupForm.validatePassword p)
            /\ (SignupForm.validateEmail e <> ""
                \/ SignupForm.validatePassword p <> "")
        end)
  /\ (forall props sys v,
        exists sys1 sys2,
          LoginForm.step props sys (LoginForm.ChangeEmail v) = Some sys1
          /\ LoginForm.email (LoginForm.form sys1) = v
          /\ LoginForm.fieldErrors (LoginForm.form sys1)
             = LoginForm.fieldErrors (LoginForm.form sys)
          /\ LoginForm.step props sys (LoginForm.ChangePassword v) = Some sys2
          /\ LoginForm.password (LoginForm.form sys2) = v
          /\ LoginForm.fieldErrors (LoginForm.form sys2)
             = LoginForm.fieldErrors (LoginForm.form sys))
  /\ (forall props sys v,
        exists sys1 sys2,
          SignupForm.step props sys (SignupForm.ChangeEmail v) = Some sys1
          /\ SignupForm.email (SignupForm.form sys1) = v
          /\ SignupForm.fieldErrors (SignupForm.form sys1)
             = SignupForm.fieldErrors (SignupForm.form sys)
          /\ SignupForm.step props sys (SignupForm.ChangePassword v) = Some sys2
          /\ SignupForm.password (SignupForm.form sys2) = v
          /\ SignupForm.fieldErrors (SignupForm.form sys2)
             = SignupForm.fieldErrors (SignupForm.form sys)).
Proof.
  split; [| split; [| split]].
  - intros props evs sys Hrun.
    pose proof (login_run_field_errors props evs _ _ Hrun) as H.
    destruct (last _) as [[e p]|]; [| exact H].
    destruct H as [Hmap Hfail]. rewrite Hmap.
    rewrite lookup_insert_eq, lookup_insert_ne, lookup_singleton_eq
      by discriminate.
    auto.
  - intros props evs sys Hrun.
    pose proof (signup_run_field_errors props evs _ _ Hrun) as H.
    destruct (last _) as [[e p]|]; [| exact H].
    destruct H as [Hmap Hfail]. rewrite Hmap.
    rewrite lookup_insert_eq, lookup_insert_ne, lookup_singleton_eq
      by discriminate.
    auto.
  - intros props sys v. do 2 eexists. simpl. repeat split.
  - intros props sys v. do 2 eexists. simpl. repeat split.
Qed.

Lemma field_errors_record_last_failed_pass_witness :
  (LoginForm.fieldErrors
     (LoginForm.setEmail "a@b.c"
        (LoginForm.setFieldErrors
           {[ "email" := "Invalid email format"; "password" := "" ]}
           (LoginForm.setPassword "pw"
              (LoginForm.setEmail "bad" LoginForm.initial))))
   = {[ "email" := LoginForm.validateEmail "bad";
        "password" := LoginForm.validatePassword "pw" ]}
   /\ LoginForm.fieldErrors
        (LoginForm.setEmail "a@b.c"
           (LoginForm.setFieldErrors
              {[ "email" := "Invalid email format"; "password" := "" ]}
              (LoginForm.setPassword "pw"
                 (LoginForm.setEmail "bad" LoginForm.initial))))
      !! "email" = Some (LoginForm.validateEmail "bad")
   /\ LoginForm.fieldErrors
        (LoginForm.setEmail "a@b.c"
           (LoginForm.setFieldErrors
              {[ "email" := "Invalid email format"; "password" := "" ]}
              (LoginForm.setPassword "pw"
                 (LoginForm.setEmail "bad" LoginForm.initial))))
      !! "password" = Some (LoginForm.validatePassword "pw")
   /\ (LoginForm.validateEmail "bad" <> ""
       \/ LoginForm.validatePassword "pw" <> ""))
  /\ (SignupForm.fieldErrors
        (SignupForm.setFieldErrors
           {[ "email" := "";
              "password" := "Password must be at least 8 characters" ]}
           (SignupForm.setPassword "short"
              (SignupForm.setEmail "a@b.c" SignupForm.initial)))
      = {[ "email" := SignupForm.validateEmail "a@b.c";
           "password" := SignupForm.validatePassword "short" ]}
      /\ SignupForm.fieldErrors
           (SignupForm.setFieldErrors
              {[ "email" := "";
                 "password" := "Password must be at least 8 characters" ]}
              (SignupForm.setPassword "short"
                 (SignupForm.setEmail "a@b.c" SignupForm.initial)))
         !! "email" = Some (SignupForm.validateEmail "a@b.c")
      /\ SignupForm.fieldErrors
           (SignupForm.setFieldErrors
              {[ "email" := "";
                 "password" := "Password must be at least 8 characters" ]}
              (SignupForm.setPassword "short"
                 (SignupForm.setEmail "a@b.c" SignupForm.initial)))
         !! "password" = Some (SignupForm.validatePassword "short")
      /\ (SignupForm.validateEmail "a@b.c" <> ""
          \/ SignupForm.validatePassword "short" <> "")).
Proof.
  split.
  - apply (proj1 field_errors_record_last_failed_pass
             {| LoginForm.onSuccess := None; LoginForm.redirectUrl := None;
                LoginForm.signupUrl := None |}
             [LoginForm.ChangeEmail "bad"; LoginForm.ChangePassword "pw";
              LoginForm.Submit; LoginForm.ChangeEmail "a@b.c"]
             {| LoginForm.form :=
                  LoginForm.setEmail "a@b.c"
                    (LoginForm.setFieldErrors
                       {[ "email" := "Invalid email format"; "password" := "" ]}
                       (LoginForm.setPassword "pw"
                          (LoginForm.setEmail "bad" LoginForm.initial)));
                LoginForm.inflight := [] |}).
    reflexivity.
  - apply (proj1 (proj2 field_errors_record_last_failed_pass)
             {| SignupForm.apiEndpoint := None; SignupForm.onSuccess := None;
                SignupForm.loginUrl := None |}
             [SignupForm.ChangeEmail "a@b.c"; SignupForm.ChangePassword "short";
              SignupForm.Submit]
             {| SignupForm.form :=
                  SignupForm.setFieldErrors
                    {[ "email" := "";
                       "password" := "Password must be at least 8 characters" ]}
                    (SignupForm.setPassword "short"
                       (SignupForm.setEmail "a@b.c" SignupForm.initial));
                SignupForm.inflight := [] |}).
    reflexivity.
Defined.

(** *** The loading flag when the adapter reports success (C2) *)

(** The signup handler always ends by clearing the loading flag: the
    [finally] block runs on every path. *)
Lemma signup_resume_clears_loading props settled (s : SignupForm.State) :
  SignupForm.loading
    (state_of (SignupForm.handleSubmit_resume props settled s)) = false.
Proof.
  run_handler. destruct settled as [response|]; [| reflexivity].
  destruct (SignupForm.ok response).
  - destruct (SignupForm.onSuccess props) as [[|]|]; reflexivity.
  - destruct (SignupForm.json_body response) as [data|]; [| reflexivity].
    destruct (get_error data); reflexivity.
Qed.

(** The login handler clears the flag in its failure branch. *)
Lemma login_failure_clears_loading props result (s : LoginForm.State) :
  LoginForm.result_error_truthy result = true ->
  LoginForm.loading
    (state_of (LoginForm.handleSubmit_resume props (LoginForm.Resolved result) s))
  = false.
Proof. intros H. run_handler. rewrite H. reflexivity. Qed.

(** Its success branch writes nothing: the flag stays as it was. *)
Lemma login_success_writes_nothing props result (s : LoginForm.State) :
  LoginForm.result_error_truthy result = false ->
  state_of (LoginForm.handleSubmit_resume props (LoginForm.Resolved result) s)
  = s.
Proof.
  intros H. run_handler. rewrite H.
  destruct (LoginForm.onSuccess props) as [[|]|]; reflexivity.
Qed.

(** C2 on the login form: a submit of valid fields to an adapter that
    reports success calls the success callback and completes, and the
    loading flag set before the call is still set afterwards. *)
Theorem login_success_leaves_loading_set :
  let props :=
    {| LoginForm.onSuccess := Some LoginForm.Returns;
       LoginForm.redirectUrl := None; LoginForm.signupUrl := None |} in
  let adapter := fun _ : LoginForm.SignInOptions =>
    LoginForm.Resolved (Some {| LoginForm.resp_error := None |}) in
  let s := LoginForm.setPassword "secret"
             (LoginForm.setEmail "a@b.com" LoginForm.initial) in
  completed (LoginForm.handleSubmit props adapter s) = Normal tt
  /\ calls_of (LoginForm.handleSubmit props adapter s)
     = [LoginForm.PreventDefault;
        LoginForm.SignIn "credentials"
          {| LoginForm.opt_email := "a@b.com";
             LoginForm.opt_password := "secret";
             LoginForm.opt_redirect := false |};
        LoginForm.OnSuccess LoginForm.Returns]
  /\ LoginForm.loading s = false
  /\ LoginForm.loading (state_of (LoginForm.handleSubmit props adapter s)) = true.
Proof. repeat split. Qed.

(** A rejected [signIn] is not caught: the handler completes abruptly and
    writes nothing, so the loading flag set before the call stays set. *)
Lemma login_rejected_writes_nothing props (s : LoginForm.State) :
  LoginForm.handleSubmit_resume props LoginForm.Rejected s = (Throw, s, []).
Proof. reflexivity. Qed.

(** *** The top-level error after a failure (C6, C10) *)

(** C6, as the specification words it, fails on the signup form: two
    failures that carry no message end with two different top-level
    errors, so there is no one fallback string.  A body that parses to an
    object without [error] gives "Signup failed"; a body that is not JSON
    text gives "Something went wrong".  On the login form a rejected
    [signIn] carries no message either, and no top-level error is set. *)
Lemma failures_without_message_differ :
  SignupForm.error
    (state_of
       (SignupForm.handleSubmit_resume
          {| SignupForm.apiEndpoint := None; SignupForm.onSuccess := None;
             SignupForm.loginUrl := None |}
          (SignupForm.Fulfilled
             {| SignupForm.status := 500;
                SignupForm.json_body := Normal (JObj ∅) |})
          (SignupForm.setLoading true SignupForm.initial)))
  = JStr "Signup failed"
  /\ SignupForm.error
       (state_of
          (SignupForm.handleSubmit_resume
             {| SignupForm.apiEndpoint := None; SignupForm.onSuccess := None;
                SignupForm.loginUrl := None |}
             (SignupForm.Fulfilled
                {| SignupForm.status := 500; SignupForm.json_body := Throw |})
             (SignupForm.setLoading true SignupForm.initial)))
     = JStr "Something went wrong"
  /\ JStr "Signup failed" <> JStr "Something went wrong"
  /\ LoginForm.handleSubmit_resume
       {| LoginForm.onSuccess := None; LoginForm.redirectUrl := None;
          LoginForm.signupUrl := None |}
       LoginForm.Rejected
       (LoginForm.setError "" (LoginForm.setLoading true LoginForm.initial))
     = (Throw,
        LoginForm.setError "" (LoginForm.setLoading true LoginForm.initial),
        [])
  /\ LoginForm.error
       (LoginForm.setError "" (LoginForm.setLoading true LoginForm.initial))
     = "".
Proof. repeat split. discriminate. Qed.

(** C6 (amended): when the adapter fails with a message, the top-level
    error is that message: on the login form, whenever [signIn] resolves
    with a truthy [error], the fixed "Invalid email or password"; on the
    signup form the truthy [error] property of the parsed body, as it is.
    When a signup failure carries no message, the top-level error is one of
    two fixed generic strings: "Signup failed" when the body parses to a
    value other than [null] whose [error] is absent or falsy, and "Something
    went wrong" when the body is not JSON text, is [null], or the request
    itself fails. *)
Theorem failure_sets_top_level_error :
  (forall props result (s : LoginForm.State),
     LoginForm.result_error_truthy result = true ->
     LoginForm.error
       (state_of
          (LoginForm.handleSubmit_resume props (LoginForm.Resolved result) s))
     = "Invalid email or password")
  /\ (forall props response data message (s : SignupForm.State),
        SignupForm.ok response = false ->
        SignupForm.json_body response = Normal data ->
        get_error data = Normal (Some message) ->
        to_boolean message = true ->
        SignupForm.error
          (state_of
             (SignupForm.handleSubmit_resume props
                (SignupForm.Fulfilled response) s))
        = message)
  /\ (forall props response data (s : SignupForm.State),
        SignupForm.ok response = false ->
        SignupForm.json_body response = Normal data ->
        (get_error data = Normal None
         \/ exists v, get_error data = Normal (Some v) /\ to_boolean v = false) ->
        SignupForm.error
          (state_of
             (SignupForm.handleSubmit_resume props
                (SignupForm.Fulfilled response) s))
        = JStr "Signup failed")
  /\ (forall props response (s : SignupForm.State),
        SignupForm.ok response = false ->
        (SignupForm.json_body response = Throw
         \/ SignupForm.json_body response = Normal JNull) ->
        SignupForm.error
          (state_of
             (SignupForm.handleSubmit_resume props
                (SignupForm.Fulfilled response) s))
        = JStr "Something went wrong")
  /\ (forall props (s : SignupForm.State),
        SignupForm.error
          (state_of
             (SignupForm.handleSubmit_resume props SignupForm.Rejected s))
        = JStr "Something went wrong").
Proof.
  split; [| split; [| split; [| split]]]; [| | | | reflexivity].
  - intros props result s H. run_handler. rewrite H. reflexivity.
  - intros props response data message s Hok Hbody Herr Htrue.
    run_handler. rewrite Hok, Hbody, Herr. simpl. rewrite Htrue. reflexivity.
  - intros props response data s Hok Hbody [Herr | (v & Herr & Hfalse)];
      run_handler; rewrite Hok, Hbody, Herr; simpl;
      [| rewrite Hfalse]; reflexivity.
  - intros props response s Hok [Hbody | Hbody];
      run_handler; rewrite Hok, Hbody; reflexivity.
Qed.

Lemma failure_sets_top_level_error_witness :
  LoginForm.error
    (state_of
       (LoginForm.handleSubmit_resume
          {| LoginForm.onSuccess := None; LoginForm.redirectUrl := None;
             LoginForm.signupUrl := None |}
          (LoginForm.Resolved
             (Some {| LoginForm.resp_error := Some "CredentialsSignin" |}))
          (LoginForm.setLoading true LoginForm.initial)))
  = "Invalid email or password"
  /\ SignupForm.error
       (state_of
          (SignupForm.handleSubmit_resume
             {| SignupForm.apiEndpoint := None; SignupForm.onSuccess := None;
                SignupForm.loginUrl := None |}
             (SignupForm.Fulfilled
                {| SignupForm.status := 409;
                   SignupForm.json_body :=
                     Normal (JObj {[ "error" := JStr "Email already in use" ]}) |})
             (SignupForm.setLoading true SignupForm.initial)))
     = JStr "Email already in use"
  /\ SignupForm.error
       (state_of
          (SignupForm.handleSubmit_resume
             {| SignupForm.apiEndpoint := None; SignupForm.onSuccess := None;
                SignupForm.loginUrl := None |}
             (SignupForm.Fulfilled
                {| SignupForm.status := 500;
                   SignupForm.json_body := Normal (JObj ∅) |})
             (SignupForm.setLoading true SignupForm.initial)))
     = JStr "Signup failed"
  /\ SignupForm.error
       (state_of
          (SignupForm.handleSubmit_resume
             {| SignupForm.apiEndpoint := None; SignupForm.onSuccess := None;
                SignupForm.loginUrl := None |}
             (SignupForm.Fulfilled
                {| SignupForm.status := 500;
                   SignupForm.json_body := Normal JNull |})
             (SignupForm.setLoading true SignupForm.initial)))
     = JStr "Something went wrong"
  /\ SignupForm.error
       (state_of
          (SignupForm.handleSubmit_resume
             {| SignupForm.apiEndpoint := None; SignupForm.onSuccess := None;
                SignupForm.loginUrl := None |}
             (SignupForm.Fulfilled
                {| SignupForm.status := 400;
                   SignupForm.json_body :=
                     Normal (JObj {[ "error" := JStr "" ]}) |})
             (SignupForm.setLoading true SignupForm.initial)))
     = JStr "Signup failed"
  /\ SignupForm.error
       (state_of
          (SignupForm.handleSubmit_resume
             {| SignupForm.apiEndpoint := None; SignupForm.onSuccess := None;
                SignupForm.loginUrl := None |}
             (SignupForm.Fulfilled
                {| SignupForm.status := 400;
                   SignupForm.json_body :=
                     Normal (JObj {[ "error" := JBool false ]}) |})
             (SignupForm.setLoading true SignupForm.initial)))
     = JStr "Signup failed"
  /\ SignupForm.error
       (state_of
          (SignupForm.handleSubmit_resume
             {| SignupForm.apiEndpoint := None; SignupForm.onSuccess := None;
                SignupForm.loginUrl := None |}
             (SignupForm.Fulfilled
                {| SignupForm.status := 502; SignupForm.json_body := Throw |})
             (SignupForm.setLoading true SignupForm.initial)))
     = JStr "Something went wrong".
Proof.
  pose proof failure_sets_top_level_error
    as (Hlogin & Hmessage & Hfallback & Hcatch & _).
  repeat apply conj.
  - apply Hlogin. reflexivity.
  - apply (Hmessage _ _ (JObj {[ "error" := JStr "Email already in use" ]}));
      reflexivity.
  - apply (Hfallback _ _ (JObj ∅)); [reflexivity | reflexivity |].
    left. reflexivity.
  - apply Hcatch; [reflexivity | right; reflexivity].
  - apply (Hfallback _ _ (JObj {[ "error" := JStr "" ]}));
      [reflexivity | reflexivity |].
    right. exists (JStr ""). split; reflexivity.
  - apply (Hfallback _ _ (JObj {[ "error" := JBool false ]}));
      [reflexivity | reflexivity |].
    right. exists (JBool false). split; reflexivity.
  - apply Hcatch; [reflexivity | left; reflexivity].
Defined.

(** C10: on the signup form a response outside 200-299 whose body is not
    JSON text ends with the top-level error "Something went wrong", not
    "Signup failed": the rejection of [response.json()] lands in the same
    [catch] as a rejected [fetch], and leaves the same state. *)
Theorem signup_unparseable_body_goes_to_catch
    props response (s : SignupForm.State) :
  SignupForm.ok response = false ->
  SignupForm.json_body response = Throw ->
  SignupForm.error
    (state_of
       (SignupForm.handleSubmit_resume props (SignupForm.Fulfilled response) s))
  = JStr "Something went wrong"
  /\ SignupForm.error
       (state_of
          (SignupForm.handleSubmit_resume props (SignupForm.Fulfilled response) s))
     <> JStr "Signup failed"
  /\ state_of
       (SignupForm.handleSubmit_resume props (SignupForm.Fulfilled response) s)
     = state_of (SignupForm.handleSubmit_resume props SignupForm.Rejected s).
Proof.
  intros Hok Hbody. run_handler. rewrite Hok, Hbody. simpl.
  repeat split. discriminate.
Qed.

Lemma signup_unparseable_body_goes_to_catch_witness :
  SignupForm.error
    (state_of
       (SignupForm.handleSubmit_resume
          {| SignupForm.apiEndpoint := None; SignupForm.onSuccess := None;
             SignupForm.loginUrl := None |}
          (SignupForm.Fulfilled
             {| SignupForm.status := 502; SignupForm.json_body := Throw |})
          (SignupForm.setLoading true SignupForm.initial)))
  = JStr "Something went wrong"
  /\ SignupForm.error
       (state_of
          (SignupForm.handleSubmit_resume
             {| SignupForm.apiEndpoint := None; SignupForm.onSuccess := None;
                SignupForm.loginUrl := None |}
             (SignupForm.Fulfilled
                {| SignupForm.status := 502; SignupForm.json_body := Throw |})
             (SignupForm.setLoading true SignupForm.initial)))
     <> JStr "Signup failed"
  /\ state_of
       (SignupForm.handleSubmit_resume
          {| SignupForm.apiEndpoint := None; SignupForm.onSuccess := None;
             SignupForm.loginUrl := None |}
          (SignupForm.Fulfilled
             {| SignupForm.status := 502; SignupForm.json_body := Throw |})
          (SignupForm.setLoading true SignupForm.initial))
     = state_of
         (SignupForm.handleSubmit_resume
            {| SignupForm.apiEndpoint := None; SignupForm.onSuccess := None;
               SignupForm.loginUrl := None |}
            SignupForm.Rejected
            (SignupForm.setLoading true SignupForm.initial)).
Proof.
  apply (signup_unparseable_body_goes_to_catch
           {| SignupForm.apiEndpoint := None; SignupForm.onSuccess := None;
              SignupForm.loginUrl := None |}
           {| SignupForm.status := 502; SignupForm.json_body := Throw |}
           (SignupForm.setLoading true SignupForm.initial));
    reflexivity.
Defined.

(** *** After a rejected adapter call (C9) *)

(** C9 on the login form: a submit of valid fields whose [signIn] call is
    rejected.  The field values are kept, but the handler completes
    abruptly at the [await]: the loading flag set before the call stays
    set and no top-level error is stored, so the submit button is rendered
    disabled and a new submit cannot be delivered through the markup.  The
    signup form, whose handler has a [catch] and a [finally], ends the same
    run with the button enabled. *)
Theorem login_rejected_signIn_locks_form :
  (exists sys,
     LoginForm.run
       {| LoginForm.onSuccess := None; LoginForm.redirectUrl := None;
          LoginForm.signupUrl := None |}
       LoginForm.start
       [LoginForm.ChangeEmail "a@b.c"; LoginForm.ChangePassword "pw";
        LoginForm.Submit; LoginForm.Settle 0 LoginForm.Rejected]
     = Some sys
     /\ LoginForm.email (LoginForm.form sys) = "a@b.c"
     /\ LoginForm.password (LoginForm.form sys) = "pw"
     /\ LoginForm.inflight sys = []
     /\ LoginForm.error (LoginForm.form sys) = ""
     /\ LoginForm.loading (LoginForm.form sys) = true
     /\ JSX.submit_disabled
          (LoginFormView.render
             {| LoginForm.onSuccess := None; LoginForm.redirectUrl := None;
                LoginForm.signupUrl := None |}
             (LoginForm.form sys))
        = true
     /\ LoginFormView.ui_step
          {| LoginForm.onSuccess := None; LoginForm.redirectUrl := None;
             LoginForm.signupUrl := None |}
          sys LoginForm.Submit
        = None)
  /\ (exists sys,
        SignupForm.run
          {| SignupForm.apiEndpoint := None; SignupForm.onSuccess := None;
             SignupForm.loginUrl := None |}
          SignupForm.start
          [SignupForm.ChangeEmail "a@b.c";
           SignupForm.ChangePassword "longenough1";
           SignupForm.Submit; SignupForm.Settle 0 SignupForm.Rejected]
        = Some sys
        /\ SignupForm.error (SignupForm.form sys) = JStr "Something went wrong"
        /\ SignupForm.loading (SignupForm.form sys) = false
        /\ JSX.submit_disabled
             (SignupFormView.render
                {| SignupForm.apiEndpoint := None; SignupForm.onSuccess := None;
                   SignupForm.loginUrl := None |}
                (SignupForm.form sys))
           = false).
Proof.
  split; (eexists; split; [reflexivity |]); repeat split.
Qed.

End HandlerFacts.

(** ** More on the validators *)

Section ValidatorMessages.
Import JS.

Lemma append_assoc (a b c : string) :
  String.append (String.append a b) c = String.append a (String.append b c).
Proof.
  induction a as [|x a IH]; [reflexivity |].
  change (String x (String.append (String.append a b) c)
          = String x (String.append a (String.append b c))).
  now rewrite IH.
Qed.

(** An occurrence survives characters added in front and behind. *)
Lemma occurs_extend (pat s pre post : string) :
  occurs pat s -> occurs pat (String.append pre (String.append s post)).
Proof.
  intros (a & b & ->).
  exists (String.append pre a), (String.append b post).
  now rewrite !append_assoc.
Qed.

(** X1: credentials that pass the signup form's validation pass the login
    form's validation as well. *)
Theorem signup_valid_is_login_valid (e p : string) :
  SignupForm.validateEmail e = "" ->
  SignupForm.validatePassword p = "" ->
  LoginForm.validateEmail e = "" /\ LoginForm.validatePassword p = "".
Proof.
  intros He Hp. split; [exact He |].
  unfold SignupForm.validatePassword in Hp. unfold LoginForm.validatePassword.
  destruct (truthy p); [reflexivity | discriminate Hp].
Qed.

Lemma signup_valid_is_login_valid_witness :
  LoginForm.validateEmail "a@b.com" = ""
  /\ LoginForm.validatePassword "longenough1" = "".
Proof.
  apply (signup_valid_is_login_valid "a@b.com" "longenough1"); reflexivity.
Defined.

(** X2: an email that passes validation still passes after characters are
    added in front of it and behind it.  Both forms. *)
Theorem validateEmail_extension (s pre post : string) :
  LoginForm.validateEmail s = "" ->
  LoginForm.validateEmail (String.append pre (String.append s post)) = ""
  /\ SignupForm.validateEmail (String.append pre (String.append s post)) = "".
Proof.
  intros Hs.
  change (SignupForm.validateEmail (String.append pre (String.append s post)))
    with (LoginForm.validateEmail (String.append pre (String.append s post))).
  destruct (validateEmail_cases s)
    as [[_ H] | [(_ & _ & H) | (_ & Hat & Hdot & _)]];
    try (rewrite H in Hs; discriminate Hs).
  apply (occurs_extend _ _ pre post) in Hat, Hdot.
  destruct (validateEmail_cases (String.append pre (String.append s post)))
    as [[Hempty _] | [(_ & Hlack & _) | (_ & _ & _ & H)]].
  - rewrite Hempty in Hat. destruct Hat as ([|x a] & b & Hab); discriminate Hab.
  - tauto.
  - now split.
Qed.

Lemma validateEmail_extension_witness :
  LoginForm.validateEmail " a@b.c " = ""
  /\ SignupForm.validateEmail " a@b.c " = "".
Proof.
  apply (validateEmail_extension "a@b.c" " " " "). reflexivity.
Defined.

(** X3: which message a validator returns.  "Email is required" and
    "Password is required" are returned for the empty input and for no
    other; the signup form's "Password must be at least 8 characters" is
    returned for the non-empty passwords shorter than 8 and for no other. *)
Theorem validator_messages (v : string) :
  (LoginForm.validateEmail v = "Email is required" <-> v = "")
  /\ (SignupForm.validateEmail v = "Email is required" <-> v = "")
  /\ (LoginForm.validatePassword v = "Password is required" <-> v = "")
  /\ (SignupForm.validatePassword v = "Password is required" <-> v = "")
  /\ (SignupForm.validatePassword v = "Password must be at least 8 characters"
      <-> v <> "" /\ String.length v < 8).
Proof.
  change (SignupForm.validateEmail v) with (LoginForm.validateEmail v).
  assert (Hemail : LoginForm.validateEmail v = "Email is required" <-> v = "").
  { destruct (validateEmail_cases v)
      as [[Hv ->] | [(Hv & _ & ->) | (Hv & _ & _ & ->)]];
      split; intros H; congruence. }
  unfold LoginForm.validatePassword, SignupForm.validatePassword.
  destruct (truthy v) eqn:Hv; simpl.
  - apply truthy_true in Hv.
    destruct (Nat.ltb_spec (String.length v) 8);
      repeat split; try tauto; try congruence; try discriminate;
      try lia; intros [_ ?]; lia.
  - apply truthy_false in Hv.
    repeat split; try tauto; try congruence; try discriminate; tauto.
Qed.

End ValidatorMessages.

(** ** Whole runs of the submit handler *)

Section SubmitRuns.
Import JS Handler.

Ltac exec :=
  cbv beta iota zeta delta
    [LoginForm.handleSubmit LoginForm.handleSubmit_begin
     LoginForm.handleSubmit_resume LoginForm.invoke
     SignupForm.handleSubmit SignupForm.handleSubmit_begin
     SignupForm.handleSubmit_resume SignupForm.handleSubmit_try
     SignupForm.invoke
     bind ret throw call snapshot set lift try_catch_finally
     completed state_of calls_of fst snd app].

(** X4: when both fields pass validation, a run of [handleSubmit] makes
    its calls in this order, however the adapter answers: [preventDefault],
    then the adapter once, with the field values of the render ([signIn]
    with [redirect: false]; [fetch] with a POST of the JSON body to the
    endpoint), then at most one more call, which is not an adapter call. *)
Theorem valid_submit_calls_adapter_once :
  (forall props adapter (s : LoginForm.State),
     LoginForm.validateEmail (LoginForm.email s) = "" ->
     LoginForm.validatePassword (LoginForm.password s) = "" ->
     exists tail,
       calls_of (LoginForm.handleSubmit props adapter s)
       = LoginForm.PreventDefault
         :: LoginForm.SignIn "credentials"
              {| LoginForm.opt_email := LoginForm.email s;
                 LoginForm.opt_password := LoginForm.password s;
                 LoginForm.opt_redirect := false |}
         :: tail
       /\ length tail <= 1
       /\ forall provider options,
            ~ In (LoginForm.SignIn provider options) tail)
  /\ (forall props adapter (s : SignupForm.State),
        SignupForm.validateEmail (SignupForm.email s) = "" ->
        SignupForm.validatePassword (SignupForm.password s) = "" ->
        exists tail,
          calls_of (SignupForm.handleSubmit props adapter s)
          = SignupForm.PreventDefault
            :: SignupForm.Fetch (SignupForm.apiEndpoint_or_default props)
                 {| SignupForm.method := "POST";
                    SignupForm.headers :=
                      {[ "Content-Type" := "application/json" ]};
                    SignupForm.body :=
                      JObj {[ "email" := JStr (SignupForm.email s);
                              "password" := JStr (SignupForm.password s) ]} |}
            :: tail
          /\ length tail <= 1
          /\ forall url init, ~ In (SignupForm.Fetch url init) tail).
Proof.
  split; intros props adapter s He Hp.
  - exec. rewrite He, Hp. simpl.
    destruct (adapter _) as [result|].
    + destruct (LoginForm.result_error_truthy result).
      * exists []. simpl. repeat split; [lia | tauto].
      * destruct (LoginForm.onSuccess props) as [[|]|]; eexists;
          (split; [reflexivity |]); simpl; (split; [lia |]);
          intros provider options [H | []]; discriminate H.
    + exists []. simpl. repeat split; [lia | tauto].
  - exec. rewrite He, Hp. simpl.
    destruct (adapter _ _) as [response|].
    + destruct (SignupForm.ok response).
      * destruct (SignupForm.onSuccess props) as [[|]|]; eexists;
          (split; [reflexivity |]); simpl; (split; [lia |]);
          intros url init [H | []]; discriminate H.
      * destruct (SignupForm.json_body response) as [data|];
          [destruct (get_error data) |]; eexists;
          (split; [reflexivity |]); simpl; (split; [lia |]);
          intros url init [H | []]; discriminate H.
    + exists []. simpl. repeat split; [lia | tauto].
Qed.

Lemma valid_submit_calls_adapter_once_witness :
  (exists tail,
     calls_of
       (LoginForm.handleSubmit
          {| LoginForm.onSuccess := None; LoginForm.redirectUrl := None;
             LoginForm.signupUrl := None |}
          (fun _ => LoginForm.Resolved None)
          (LoginForm.setPassword "pw"
             (LoginForm.setEmail "a@b.c" LoginForm.initial)))
     = LoginForm.PreventDefault
       :: LoginForm.SignIn "credentials"
            {| LoginForm.opt_email := "a@b.c"; LoginForm.opt_password := "pw";
               LoginForm.opt_redirect := false |}
       :: tail
     /\ length tail <= 1
     /\ forall provider options,
          ~ In (LoginForm.SignIn provider options) tail)
  /\ (exists tail,
        calls_of
          (SignupForm.handleSubmit
             {| SignupForm.apiEndpoint := None; SignupForm.onSuccess := None;
                SignupForm.loginUrl := None |}
             (fun _ _ => SignupForm.Rejected)
             (SignupForm.setPassword "longenough1"
                (SignupForm.setEmail "a@b.com" SignupForm.initial)))
        = SignupForm.PreventDefault
          :: SignupForm.Fetch "/api/auth/signup"
               {| SignupForm.method := "POST";
                  SignupForm.headers :=
                    {[ "Content-Type" := "application/json" ]};
                  SignupForm.body :=
                    JObj {[ "email" := JStr "a@b.com";
                            "password" := JStr "longenough1" ]} |}
          :: tail
        /\ length tail <= 1
        /\ forall url init, ~ In (SignupForm.Fetch url init) tail).
Proof.
  split.
  - apply (proj1 valid_submit_calls_adapter_once
             {| LoginForm.onSuccess := None; LoginForm.redirectUrl := None;
                LoginForm.signupUrl := None |}
             (fun _ => LoginForm.Resolved None)
             (LoginForm.setPassword "pw"
                (LoginForm.setEmail "a@b.c" LoginForm.initial)));
      reflexivity.
  - apply (proj2 valid_submit_calls_adapter_once
             {| SignupForm.apiEndpoint := None; SignupForm.onSuccess := None;
                SignupForm.loginUrl := None |}
             (fun _ _ => SignupForm.Rejected)
             (SignupForm.setPassword "longenough1"
                (SignupForm.setEmail "a@b.com" SignupForm.initial)));
      reflexivity.
Defined.

(** What [result?.error] lets through as a success. *)
Lemma result_error_falsy (result : option LoginForm.SignInResponse) :
  LoginForm.result_error_truthy result = false
  <-> result = None
      \/ (exists r, result = Some r
                    /\ (LoginForm.resp_error r = None
                        \/ LoginForm.resp_error r = Some "")).
Proof.
  unfold LoginForm.result_error_truthy.
  destruct result as [[[e|]]|]; simpl.
  - rewrite truthy_false. split.
    + intros ->. right. eexists. split; [reflexivity | now right].
    + intros [H | (r & H & [H' | H'])]; [discriminate H | |];
        injection H as <-; simpl in H'; congruence.
  - split; [| reflexivity]. intros _. right. eexists.
    split; [reflexivity | now left].
  - split; [| reflexivity]. intros _. now left.
Qed.

(** X5: a run of the login form's [handleSubmit] with valid fields, when
    [signIn] resolves to [undefined] or to a result whose [error] is
    [undefined] or empty: the handler calls [onSuccess] when it was
    supplied and otherwise sets [window.location.href] to [redirectUrl]
    ("/" when not supplied), never both; the top-level error is empty. *)
Theorem login_success_run props adapter (s : LoginForm.State) result :
  LoginForm.validateEmail (LoginForm.email s) = "" ->
  LoginForm.validatePassword (LoginForm.password s) = "" ->
  adapter
    {| LoginForm.opt_email := LoginForm.email s;
       LoginForm.opt_password := LoginForm.password s;
       LoginForm.opt_redirect := false |}
  = LoginForm.Resolved result ->
  (result = None
   \/ exists r, result = Some r
                /\ (LoginForm.resp_error r = None
                    \/ LoginForm.resp_error r = Some "")) ->
  calls_of (LoginForm.handleSubmit props adapter s)
  = [LoginForm.PreventDefault;
     LoginForm.SignIn "credentials"
       {| LoginForm.opt_email := LoginForm.email s;
          LoginForm.opt_password := LoginForm.password s;
          LoginForm.opt_redirect := false |};
     match LoginForm.onSuccess props with
     | Some cb => LoginForm.OnSuccess cb
     | None =>
         LoginForm.SetLocationHref
           (match LoginForm.redirectUrl props with
            | Some url => url
            | None => "/"
            end)
     end]
  /\ LoginForm.error (state_of (LoginForm.handleSubmit props adapter s)) = "".
Proof.
  intros He Hp Hadapter Hresult. apply result_error_falsy in Hresult.
  exec. rewrite He, Hp. simpl. rewrite Hadapter, Hresult.
  destruct props as [[[|]|] [url|] signup]; simpl; split; reflexivity.
Qed.

Lemma login_success_run_witness :
  calls_of
    (LoginForm.handleSubmit
       {| LoginForm.onSuccess := None; LoginForm.redirectUrl := None;
          LoginForm.signupUrl := None |}
       (fun _ => LoginForm.Resolved (Some {| LoginForm.resp_error := Some "" |}))
       (LoginForm.setPassword "pw"
          (LoginForm.setEmail "a@b.c" LoginForm.initial)))
  = [LoginForm.PreventDefault;
     LoginForm.SignIn "credentials"
       {| LoginForm.opt_email := "a@b.c"; LoginForm.opt_password := "pw";
          LoginForm.opt_redirect := false |};
     LoginForm.SetLocationHref "/"]
  /\ LoginForm.error
       (state_of
          (LoginForm.handleSubmit
             {| LoginForm.onSuccess := None; LoginForm.redirectUrl := None;
                LoginForm.signupUrl := None |}
             (fun _ =>
                LoginForm.Resolved (Some {| LoginForm.resp_error := Some "" |}))
             (LoginForm.setPassword "pw"
                (LoginForm.setEmail "a@b.c" LoginForm.initial))))
     = "".
Proof.
  apply (login_success_run
           {| LoginForm.onSuccess := None; LoginForm.redirectUrl := None;
              LoginForm.signupUrl := None |}
           (fun _ =>
              LoginForm.Resolved (Some {| LoginForm.resp_error := Some "" |}))
           (LoginForm.setPassword "pw"
              (LoginForm.setEmail "a@b.c" LoginForm.initial))
           (Some {| LoginForm.resp_error := Some "" |}));
    try reflexivity.
  right. eexists. split; [reflexivity | now right].
Defined.

(** X6: a run of the signup form's [handleSubmit] with valid fields, when
    the response status is in 200-299 and [onSuccess] is absent or returns:
    the handler calls [onSuccess] or else sets [window.location.href] to
    [loginUrl] ("/login" when not supplied), never reads the body, and
    leaves the loading flag cleared and the top-level error empty, the
    field values and field errors as they were. *)
Theorem signup_success_run props adapter (s : SignupForm.State) response :
  SignupForm.validateEmail (SignupForm.email s) = "" ->
  SignupForm.validatePassword (SignupForm.password s) = "" ->
  (forall init,
     adapter (SignupForm.apiEndpoint_or_default props) init
     = SignupForm.Fulfilled response) ->
  (200 <= SignupForm.status response <= 299)%N ->
  SignupForm.onSuccess props <> Some SignupForm.Throws ->
  exists init,
    SignupForm.handleSubmit props adapter s
    = (Normal tt,
       SignupForm.setLoading false (SignupForm.setError (JStr "") s),
       [SignupForm.PreventDefault;
        SignupForm.Fetch
          (match SignupForm.apiEndpoint props with
           | Some url => url
           | None => "/api/auth/signup"
           end) init;
        match SignupForm.onSuccess props with
        | Some cb => SignupForm.OnSuccess cb
        | None =>
            SignupForm.SetLocationHref
              (match SignupForm.loginUrl props with
               | Some url => url
               | None => "/login"
               end)
        end]).
Proof.
  intros He Hp Hadapter Hstatus Hcb.
  assert (Hok : SignupForm.ok response = true).
  { unfold SignupForm.ok. apply andb_true_intro.
    split; apply N.leb_le; lia. }
  eexists. exec. rewrite He, Hp. simpl. rewrite Hadapter, Hok.
  destruct props as [[url|] [[|]|] [login|]]; simpl in *;
    try reflexivity; congruence.
Qed.

Lemma signup_success_run_witness :
  exists init,
    SignupForm.handleSubmit
      {| SignupForm.apiEndpoint := None;
         SignupForm.onSuccess := Some SignupForm.Returns;
         SignupForm.loginUrl := None |}
      (fun _ _ =>
         SignupForm.Fulfilled
           {| SignupForm.status := 201; SignupForm.json_body := Throw |})
      (SignupForm.setPassword "longenough1"
         (SignupForm.setEmail "a@b.com" SignupForm.initial))
    = (Normal tt,
       SignupForm.setLoading false
         (SignupForm.setError (JStr "")
            (SignupForm.setPassword "longenough1"
               (SignupForm.setEmail "a@b.com" SignupForm.initial))),
       [SignupForm.PreventDefault;
        SignupForm.Fetch "/api/auth/signup" init;
        SignupForm.OnSuccess SignupForm.Returns]).
Proof.
  apply (signup_success_run
           {| SignupForm.apiEndpoint := None;
              SignupForm.onSuccess := Some SignupForm.Returns;
              SignupForm.loginUrl := None |}
           (fun _ _ =>
              SignupForm.Fulfilled
                {| SignupForm.status := 201; SignupForm.json_body := Throw |})
           (SignupForm.setPassword "longenough1"
              (SignupForm.setEmail "a@b.com" SignupForm.initial))
           {| SignupForm.status := 201; SignupForm.json_body := Throw |}).
  - reflexivity.
  - reflexivity.
  - intros init. reflexivity.
  - simpl. lia.
  - discriminate.
Defined.

(** X7: an [onSuccess] that throws.  In the signup form the exception is
    caught with everything else in the [try] block: the handler completes
    normally, the top-level error is "Something went wrong" although the
    response was a success, and the loading flag is cleared.  In the login
    form nothing catches it: the handler completes abruptly and the state
    keeps the loading flag set, with no top-level error. *)
Theorem onSuccess_throws :
  (forall props response (s : SignupForm.State),
     SignupForm.ok response = true ->
     SignupForm.onSuccess props = Some SignupForm.Throws ->
     SignupForm.handleSubmit_resume props (SignupForm.Fulfilled response) s
     = (Normal tt,
        SignupForm.setLoading false
          (SignupForm.setError (JStr "Something went wrong") s),
        [SignupForm.OnSuccess SignupForm.Throws]))
  /\ (forall props adapter result (s : LoginForm.State),
        LoginForm.validateEmail (LoginForm.email s) = "" ->
        LoginForm.validatePassword (LoginForm.password s) = "" ->
        (forall options, adapter options = LoginForm.Resolved result) ->
        LoginForm.result_error_truthy result = false ->
        LoginForm.onSuccess props = Some LoginForm.Throws ->
        completed (LoginForm.handleSubmit props adapter s) = Throw
        /\ state_of (LoginForm.handleSubmit props adapter s)
           = LoginForm.setError "" (LoginForm.setLoading true s)).
Proof.
  split.
  - intros props response s Hok Hcb. exec. rewrite Hok, Hcb. reflexivity.
  - intros props adapter result s He Hp Hadapter Hresult Hcb.
    exec. rewrite He, Hp. simpl. rewrite Hadapter, Hresult, Hcb.
    split; reflexivity.
Qed.

Lemma onSuccess_throws_witness :
  SignupForm.handleSubmit_resume
    {| SignupForm.apiEndpoint := None;
       SignupForm.onSuccess := Some SignupForm.Throws;
       SignupForm.loginUrl := None |}
    (SignupForm.Fulfilled
       {| SignupForm.status := 200; SignupForm.json_body := Throw |})
    (SignupForm.setLoading true SignupForm.initial)
  = (Normal tt,
     SignupForm.setLoading false
       (SignupForm.setError (JStr "Something went wrong")
          (SignupForm.setLoading true SignupForm.initial)),
     [SignupForm.OnSuccess SignupForm.Throws])
  /\ (completed
        (LoginForm.handleSubmit
           {| LoginForm.onSuccess := Some LoginForm.Throws;
              LoginForm.redirectUrl := None; LoginForm.signupUrl := None |}
           (fun _ => LoginForm.Resolved None)
           (LoginForm.setPassword "pw"
              (LoginForm.setEmail "a@b.c" LoginForm.initial)))
      = Throw
      /\ state_of
           (LoginForm.handleSubmit
              {| LoginForm.onSuccess := Some LoginForm.Throws;
                 LoginForm.redirectUrl := None; LoginForm.signupUrl := None |}
              (fun _ => LoginForm.Resolved None)
              (LoginForm.setPassword "pw"
                 (LoginForm.setEmail "a@b.c" LoginForm.initial)))
         = LoginForm.setError ""
             (LoginForm.setLoading true
                (LoginForm.setPassword "pw"
                   (LoginForm.setEmail "a@b.c" LoginForm.initial)))).
Proof.
  split.
  - apply (proj1 onSuccess_throws); reflexivity.
  - apply (proj2 onSuccess_throws
             {| LoginForm.onSuccess := Some LoginForm.Throws;
                LoginForm.redirectUrl := None; LoginForm.signupUrl := None |}
             (fun _ => LoginForm.Resolved None) None);
      reflexivity.
Defined.

(** X8: submitting again without touching the fields after a failed
    validation changes nothing: the second run leaves the state of the
    first and again calls only [preventDefault].  Both forms. *)
Theorem invalid_submit_idempotent :
  (forall props adapter adapter' (s : LoginForm.State),
     LoginForm.validateEmail (LoginForm.email s) <> ""
     \/ LoginForm.validatePassword (LoginForm.password s) <> "" ->
     LoginForm.handleSubmit props adapter'
       (state_of (LoginForm.handleSubmit props adapter s))
     = (Normal tt, state_of (LoginForm.handleSubmit props adapter s),
        [LoginForm.PreventDefault]))
  /\ (forall props adapter adapter' (s : SignupForm.State),
        SignupForm.validateEmail (SignupForm.email s) <> ""
        \/ SignupForm.validatePassword (SignupForm.password s) <> "" ->
        SignupForm.handleSubmit props adapter'
          (state_of (SignupForm.handleSubmit props adapter s))
        = (Normal tt, state_of (SignupForm.handleSubmit props adapter s),
           [SignupForm.PreventDefault])).
Proof.
  split; intros props adapter adapter' s H.
  - rewrite (login_invalid_submit props adapter s H). simpl.
    rewrite login_invalid_submit by exact H. reflexivity.
  - rewrite (signup_invalid_submit props adapter s H). simpl.
    rewrite signup_invalid_submit by exact H. reflexivity.
Qed.

Lemma invalid_submit_idempotent_witness :
  LoginForm.handleSubmit
    {| LoginForm.onSuccess := None; LoginForm.redirectUrl := None;
       LoginForm.signupUrl := None |}
    (fun _ => LoginForm.Rejected)
    (state_of
       (LoginForm.handleSubmit
          {| LoginForm.onSuccess := None; LoginForm.redirectUrl := None;
             LoginForm.signupUrl := None |}
          (fun _ => LoginForm.Rejected)
          (LoginForm.setEmail "bad" LoginForm.initial)))
  = (Normal tt,
     state_of
       (LoginForm.handleSubmit
          {| LoginForm.onSuccess := None; LoginForm.redirectUrl := None;
             LoginForm.signupUrl := None |}
          (fun _ => LoginForm.Rejected)
          (LoginForm.setEmail "bad" LoginForm.initial)),
     [LoginForm.PreventDefault])
  /\ calls_of
       (SignupForm.handleSubmit
          {| SignupForm.apiEndpoint := None; SignupForm.onSuccess := None;
             SignupForm.loginUrl := None |}
          (fun _ _ => SignupForm.Rejected)
          (state_of
             (SignupForm.handleSubmit
                {| SignupForm.apiEndpoint := None; SignupForm.onSuccess := None;
                   SignupForm.loginUrl := None |}
                (fun _ _ => SignupForm.Rejected)
                (SignupForm.setPassword "short" SignupForm.initial))))
     = [SignupForm.PreventDefault].
Proof.
  split.
  - apply (proj1 invalid_submit_idempotent). left. discriminate.
  - rewrite (proj2 invalid_submit_idempotent); [reflexivity |].
    left. discriminate.
Defined.

End SubmitRuns.

(** ** Invariants of the components *)

Section Invariants.
Import JS Handler JSX.

(** Induction over a run, for a property of the system that every step
    keeps. *)
Lemma login_run_keeps props (P : LoginForm.System -> Prop) :
  (forall sys ev sys',
     LoginForm.step props sys ev = Some sys' -> P sys -> P sys') ->
  forall evs sys sys',
    LoginForm.run props sys evs = Some sys' -> P sys -> P sys'.
Proof.
  intros Hstep evs.
  induction evs as [|ev evs IH]; intros sys sys' Hrun HP; simpl in Hrun.
  - now injection Hrun as <-.
  - destruct (LoginForm.step props sys ev) as [sys1|] eqn:H1; [| discriminate].
    exact (IH _ _ Hrun (Hstep _ _ _ H1 HP)).
Qed.

Lemma signup_run_keeps props (P : SignupForm.System -> Prop) :
  (forall sys ev sys',
     SignupForm.step props sys ev = Some sys' -> P sys -> P sys') ->
  forall evs sys sys',
    SignupForm.run props sys evs = Some sys' -> P sys -> P sys'.
Proof.
  intros Hstep evs.
  induction evs as [|ev evs IH]; intros sys sys' Hrun HP; simpl in Hrun.
  - now injection Hrun as <-.
  - destruct (SignupForm.step props sys ev) as [sys1|] eqn:H1; [| discriminate].
    exact (IH _ _ Hrun (Hstep _ _ _ H1 HP)).
Qed.

(** What the second half of each handler can leave in the top-level
    error. *)
Ltac exec_resume :=
  cbv beta iota zeta delta
    [LoginForm.handleSubmit_resume LoginForm.invoke
     SignupForm.handleSubmit_resume SignupForm.handleSubmit_try
     SignupForm.invoke
     bind ret throw call snapshot set lift try_catch_finally
     completed state_of calls_of fst snd app].

Lemma login_resume_error props settled (s : LoginForm.State) :
  LoginForm.error (state_of (LoginForm.handleSubmit_resume props settled s))
  = LoginForm.error s
  \/ LoginForm.error (state_of (LoginForm.handleSubmit_resume props settled s))
     = "Invalid email or password".
Proof.
  exec_resume. destruct settled as [result|]; [| now left].
  destruct (LoginForm.result_error_truthy result); [now right |].
  destruct (LoginForm.onSuccess props) as [[|]|]; now left.
Qed.

Lemma or_else_truthy (v : option json) (d : json) :
  to_boolean d = true -> to_boolean (or_else v d) = true.
Proof.
  intros Hd. destruct v as [x|]; simpl; [| exact Hd].
  destruct (to_boolean x) eqn:Hx; [exact Hx | exact Hd].
Qed.

Lemma signup_resume_error props settled (s : SignupForm.State) :
  SignupForm.error (state_of (SignupForm.handleSubmit_resume props settled s))
  = SignupForm.error s
  \/ to_boolean
       (SignupForm.error
          (state_of (SignupForm.handleSubmit_resume props settled s)))
     = true.
Proof.
  exec_resume. destruct settled as [response|]; [| right; reflexivity].
  destruct (SignupForm.ok response).
  - destruct (SignupForm.onSuccess props) as [[|]|];
      [left; reflexivity | right; reflexivity | left; reflexivity].
  - destruct (SignupForm.json_body response) as [data|];
      [| right; reflexivity].
    destruct (get_error data) as [e|]; [| right; reflexivity].
    right. simpl. now apply or_else_truthy.
Qed.

(** X9: in every reachable state of the login form the top-level error is
    empty or is "Invalid email or password": nothing the adapter returns
    ever reaches it. *)
Theorem login_error_values props sys :
  LoginForm.reachable props sys ->
  LoginForm.error (LoginForm.form sys) = ""
  \/ LoginForm.error (LoginForm.form sys) = "Invalid email or password".
Proof.
  intros [evs Hrun].
  refine (login_run_keeps props
            (fun sys => LoginForm.error (LoginForm.form sys) = ""
                        \/ LoginForm.error (LoginForm.form sys)
                           = "Invalid email or password")
            _ evs _ _ Hrun _); [| now left].
  clear. intros sys ev sys' Hstep HP.
  destruct ev as [v | v | | i settled]; simpl in Hstep.
  - now injection Hstep as <-.
  - now injection Hstep as <-.
  - injection Hstep as <-. simpl.
    destruct (login_begin_cases (LoginForm.form sys))
      as [[_ ->] | (_ & _ & options & ->)]; [exact HP | now left].
  - destruct (LoginForm.inflight sys !! i); [| discriminate].
    injection Hstep as <-. simpl.
    destruct (login_resume_error props settled (LoginForm.form sys))
      as [-> | ->]; [exact HP | now right].
Qed.

Lemma login_error_values_witness :
  LoginForm.error
    (LoginForm.setLoading false
       (LoginForm.setError "Invalid email or password"
          (LoginForm.setError ""
             (LoginForm.setLoading true
                (LoginForm.setPassword "pw"
                   (LoginForm.setEmail "a@b.c" LoginForm.initial))))))
  = ""
  \/ LoginForm.error
       (LoginForm.setLoading false
          (LoginForm.setError "Invalid email or password"
             (LoginForm.setError ""
                (LoginForm.setLoading true
                   (LoginForm.setPassword "pw"
                      (LoginForm.setEmail "a@b.c" LoginForm.initial))))))
     = "Invalid email or password".
Proof.
  apply (login_error_values
           {| LoginForm.onSuccess := None; LoginForm.redirectUrl := None;
              LoginForm.signupUrl := None |}
           {| LoginForm.form :=
                LoginForm.setLoading false
                  (LoginForm.setError "Invalid email or password"
                     (LoginForm.setError ""
                        (LoginForm.setLoading true
                           (LoginForm.setPassword "pw"
                              (LoginForm.setEmail "a@b.c" LoginForm.initial)))));
              LoginForm.inflight := [] |}).
  exists [LoginForm.ChangeEmail "a@b.c"; LoginForm.ChangePassword "pw";
          LoginForm.Submit;
          LoginForm.Settle 0
            (LoginForm.Resolved
               (Some {| LoginForm.resp_error := Some "CredentialsSignin" |}))].
  reflexivity.
Defined.

(** X10: in every reachable state of the signup form the top-level error
    is the empty string or a truthy value: a falsy [error] of a response
    body (0, false, null, the empty string) is never stored, the fallback
    takes its place. *)
Theorem signup_error_values props sys :
  SignupForm.reachable props sys ->
  SignupForm.error (SignupForm.form sys) = JStr ""
  \/ to_boolean (SignupForm.error (SignupForm.form sys)) = true.
Proof.
  intros [evs Hrun].
  refine (signup_run_keeps props
            (fun sys => SignupForm.error (SignupForm.form sys) = JStr ""
                        \/ to_boolean (SignupForm.error (SignupForm.form sys))
                           = true)
            _ evs _ _ Hrun _); [| now left].
  clear. intros sys ev sys' Hstep HP.
  destruct ev as [v | v | | i settled]; simpl in Hstep.
  - now injection Hstep as <-.
  - now injection Hstep as <-.
  - injection Hstep as <-. simpl.
    destruct (signup_begin_cases props (SignupForm.form sys))
      as [[_ ->] | (_ & _ & init & ->)]; [exact HP | now left].
  - destruct (SignupForm.inflight sys !! i); [| discriminate].
    injection Hstep as <-. simpl.
    destruct (signup_resume_error props settled (SignupForm.form sys))
      as [-> | H]; [exact HP | now right].
Qed.

Lemma signup_error_values_witness :
  SignupForm.error
    (SignupForm.setLoading false
       (SignupForm.setError (JStr "Signup failed")
          (SignupForm.setError (JStr "")
             (SignupForm.setLoading true
                (SignupForm.setPassword "longenough1"
                   (SignupForm.setEmail "a@b.com" SignupForm.initial))))))
  = JStr ""
  \/ to_boolean
       (SignupForm.error
          (SignupForm.setLoading false
             (SignupForm.setError (JStr "Signup failed")
                (SignupForm.setError (JStr "")
                   (SignupForm.setLoading true
                      (SignupForm.setPassword "longenough1"
                         (SignupForm.setEmail "a@b.com" SignupForm.initial)))))))
     = true.
Proof.
  apply (signup_error_values
           {| SignupForm.apiEndpoint := None; SignupForm.onSuccess := None;
              SignupForm.loginUrl := None |}
           {| SignupForm.form :=
                SignupForm.setLoading false
                  (SignupForm.setError (JStr "Signup failed")
                     (SignupForm.setError (JStr "")
                        (SignupForm.setLoading true
                           (SignupForm.setPassword "longenough1"
                              (SignupForm.setEmail "a@b.com"
                                 SignupForm.initial)))));
              SignupForm.inflight := [] |}).
  exists [SignupForm.ChangeEmail "a@b.com";
          SignupForm.ChangePassword "longenough1";
          SignupForm.Submit;
          SignupForm.Settle 0
            (SignupForm.Fulfilled
               {| SignupForm.status := 400;
                  SignupForm.json_body :=
                    Normal (JObj {[ "error" := JBool false ]}) |})].
  reflexivity.
Defined.

(** *** Submissions in flight *)

Lemma login_run_app props evs1 : forall evs2 sys sys1,
  LoginForm.run props sys evs1 = Some sys1 ->
  LoginForm.run props sys (evs1 ++ evs2)%list = LoginForm.run props sys1 evs2.
Proof.
  induction evs1 as [|ev evs1 IH]; intros evs2 sys sys1 Hrun; simpl in *.
  - now injection Hrun as <-.
  - destruct (LoginForm.step props sys ev); [eauto | discriminate].
Qed.

Lemma signup_run_app props evs1 : forall evs2 sys sys1,
  SignupForm.run props sys evs1 = Some sys1 ->
  SignupForm.run props sys (evs1 ++ evs2)%list
  = SignupForm.run props sys1 evs2.
Proof.
  induction evs1 as [|ev evs1 IH]; intros evs2 sys sys1 Hrun; simpl in *.
  - now injection Hrun as <-.
  - destruct (SignupForm.step props sys ev); [eauto | discriminate].
Qed.

(** With valid fields, [n] submits in a row put [n] more calls in flight. *)
Lemma login_submits_pile_up props n : forall sys,
  LoginForm.validateEmail (LoginForm.email (LoginForm.form sys)) = "" ->
  LoginForm.validatePassword (LoginForm.password (LoginForm.form sys)) = "" ->
  exists sys',
    LoginForm.run props sys (repeat LoginForm.Submit n) = Some sys'
    /\ length (LoginForm.inflight sys') = length (LoginForm.inflight sys) + n.
Proof.
  induction n as [|n IH]; intros sys He Hp; simpl.
  - exists sys. split; [reflexivity | lia].
  - pose proof (login_valid_begin _ He Hp) as Hb. cbv zeta in Hb.
    rewrite Hb. simpl.
    match goal with
    | |- context [LoginForm.run props ?sys1 _] =>
        destruct (IH sys1 He Hp) as (sys' & Hrun & Hlen)
    end.
    exists sys'. split; [exact Hrun |].
    rewrite Hlen. simpl. rewrite length_app. simpl. lia.
Qed.

Lemma signup_submits_pile_up props n : forall sys,
  SignupForm.validateEmail (SignupForm.email (SignupForm.form sys)) = "" ->
  SignupForm.validatePassword (SignupForm.password (SignupForm.form sys)) = "" ->
  exists sys',
    SignupForm.run props sys (repeat SignupForm.Submit n) = Some sys'
    /\ length (SignupForm.inflight sys') = length (SignupForm.inflight sys) + n.
Proof.
  induction n as [|n IH]; intros sys He Hp; simpl.
  - exists sys. split; [reflexivity | lia].
  - pose proof (signup_valid_begin props _ He Hp) as Hb. cbv zeta in Hb.
    rewrite Hb. simpl.
    match goal with
    | |- context [SignupForm.run props ?sys1 _] =>
        destruct (IH sys1 He Hp) as (sys' & Hrun & Hlen)
    end.
    exists sys'. split; [exact Hrun |].
    rewrite Hlen. simpl. rewrite length_app. simpl. lia.
Qed.

(** X11: [handleSubmit] itself never turns a submit down while another is
    pending: for every [n] the component has a reachable state with [n]
    adapter calls in flight.  Both forms. *)
Theorem submissions_unbounded (n : nat) :
  (forall props, exists sys,
     LoginForm.reachable props sys /\ length (LoginForm.inflight sys) = n)
  /\ (forall props, exists sys,
        SignupForm.reachable props sys
        /\ length (SignupForm.inflight sys) = n).
Proof.
  split; intros props.
  - destruct (login_submits_pile_up props n
                {| LoginForm.form :=
                     LoginForm.setPassword "pw"
                       (LoginForm.setEmail "a@b.c" LoginForm.initial);
                   LoginForm.inflight := [] |})
      as (sys & Hrun & Hlen); [reflexivity | reflexivity |].
    exists sys. split; [| exact Hlen].
    exists ([LoginForm.ChangeEmail "a@b.c"; LoginForm.ChangePassword "pw"]
            ++ repeat LoginForm.Submit n)%list.
    rewrite <- Hrun. now apply login_run_app.
  - destruct (signup_submits_pile_up props n
                {| SignupForm.form :=
                     SignupForm.setPassword "longenough1"
                       (SignupForm.setEmail "a@b.com" SignupForm.initial);
                   SignupForm.inflight := [] |})
      as (sys & Hrun & Hlen); [reflexivity | reflexivity |].
    exists sys. split; [| exact Hlen].
    exists ([SignupForm.ChangeEmail "a@b.com";
             SignupForm.ChangePassword "longenough1"]
            ++ repeat SignupForm.Submit n)%list.
    rewrite <- Hrun. now apply signup_run_app.
Qed.

End Invariants.

(** ** The markup *)

Section Markup.
Import JS Handler JSX.

(** Evaluates a query on a rendered tree, once the expression containers
    have been decided. *)
Ltac decide_containers :=
  repeat match goal with
    | |- context [and_then ?c _] =>
        match c with
        | Some ?m => unfold and_then at 1; destruct (truthy m) eqn:?
        | _ => destruct c as [?m|] eqn:?; [| unfold and_then at 1]
        end
    | |- context [and_then_value ?v _] =>
        unfold and_then_value at 1; destruct (to_boolean v) eqn:?
    end.

Lemma login_submit_disabled props (s : LoginForm.State) :
  submit_disabled (LoginFormView.render props s) = LoginForm.loading s.
Proof.
  unfold LoginFormView.render. decide_containers;
    cbn; destruct (LoginForm.loading s); reflexivity.
Qed.

Lemma signup_submit_disabled props (s : SignupForm.State) :
  submit_disabled (SignupFormView.render props s) = SignupForm.loading s.
Proof.
  unfold SignupFormView.render. decide_containers;
    cbn; destruct (SignupForm.loading s); reflexivity.
Qed.

Ltac by_rendering :=
  decide_containers; cbn;
  repeat match goal with
    | H : truthy _ = _ |- _ => rewrite H; cbn
    end;
  try reflexivity.

(** The paragraphs under the fields, read off a render. *)
Lemma login_field_paragraphs props (s : LoginForm.State) :
  paragraphs field_error_class (LoginFormView.render props s)
  = List.map (fun m => [Text m])
      (List.filter truthy
         (option_list (LoginForm.fieldErrors s !! "email")
          ++ option_list (LoginForm.fieldErrors s !! "password"))).
Proof. unfold LoginFormView.render. by_rendering. Qed.

Lemma signup_field_paragraphs props (s : SignupForm.State) :
  paragraphs field_error_class (SignupFormView.render props s)
  = List.map (fun m => [Text m])
      (List.filter truthy
         (option_list (SignupForm.fieldErrors s !! "email")
          ++ option_list (SignupForm.fieldErrors s !! "password"))).
Proof. unfold SignupFormView.render. by_rendering. Qed.

(** X12: the error paragraphs of a render.  Under the fields, one paragraph
    for each message of [fieldErrors] that is present and not empty, with
    the message as its text, email first; under the button, one paragraph
    with the top-level error when it is truthy, none otherwise.  An error
    paragraph is never rendered empty.  Both forms. *)
Theorem error_paragraphs :
  (forall props (s : LoginForm.State),
     paragraphs field_error_class (LoginFormView.render props s)
     = List.map (fun m => [Text m])
         (List.filter truthy
            (option_list (LoginForm.fieldErrors s !! "email")
             ++ option_list (LoginForm.fieldErrors s !! "password")))
     /\ paragraphs top_error_class (LoginFormView.render props s)
        = if truthy (LoginForm.error s) then [[Text (LoginForm.error s)]]
          else [])
  /\ (forall props (s : SignupForm.State),
        paragraphs field_error_class (SignupFormView.render props s)
        = List.map (fun m => [Text m])
            (List.filter truthy
               (option_list (SignupForm.fieldErrors s !! "email")
                ++ option_list (SignupForm.fieldErrors s !! "password")))
        /\ paragraphs top_error_class (SignupFormView.render props s)
           = if to_boolean (SignupForm.error s)
             then [[Value (SignupForm.error s)]]
             else []).
Proof.
  split; intros props s; split.
  - apply login_field_paragraphs.
  - unfold LoginFormView.render. by_rendering.
  - apply signup_field_paragraphs.
  - unfold SignupFormView.render. by_rendering.
Qed.

(** X13: after a submit whose validation fails, the render shows under
    the fields exactly the non-empty messages the two validators returned
    for the submitted values, email first: a field that passed gets no
    paragraph, its empty entry in [fieldErrors] notwithstanding.  Both
    forms. *)
Theorem invalid_submit_shows_messages :
  (forall props adapter (s : LoginForm.State),
     LoginForm.validateEmail (LoginForm.email s) <> ""
     \/ LoginForm.validatePassword (LoginForm.password s) <> "" ->
     paragraphs field_error_class
       (LoginFormView.render props
          (state_of (LoginForm.handleSubmit props adapter s)))
     = List.map (fun m => [Text m])
         (List.filter truthy
            [LoginForm.validateEmail (LoginForm.email s);
             LoginForm.validatePassword (LoginForm.password s)]))
  /\ (forall props adapter (s : SignupForm.State),
        SignupForm.validateEmail (SignupForm.email s) <> ""
        \/ SignupForm.validatePassword (SignupForm.password s) <> "" ->
        paragraphs field_error_class
          (SignupFormView.render props
             (state_of (SignupForm.handleSubmit props adapter s)))
        = List.map (fun m => [Text m])
            (List.filter truthy
               [SignupForm.validateEmail (SignupForm.email s);
                SignupForm.validatePassword (SignupForm.password s)])).
Proof.
  split; intros props adapter s H.
  - rewrite (login_invalid_submit props adapter s H).
    rewrite login_field_paragraphs.
    cbn [state_of fst snd LoginForm.setFieldErrors LoginForm.fieldErrors].
    rewrite lookup_insert_eq, lookup_insert_ne, lookup_singleton_eq
      by discriminate.
    reflexivity.
  - rewrite (signup_invalid_submit props adapter s H).
    rewrite signup_field_paragraphs.
    cbn [state_of fst snd SignupForm.setFieldErrors SignupForm.fieldErrors].
    rewrite lookup_insert_eq, lookup_insert_ne, lookup_singleton_eq
      by discriminate.
    reflexivity.
Qed.

Lemma invalid_submit_shows_messages_witness :
  paragraphs field_error_class
    (LoginFormView.render
       {| LoginForm.onSuccess := None; LoginForm.redirectUrl := None;
          LoginForm.signupUrl := None |}
       (state_of
          (LoginForm.handleSubmit
             {| LoginForm.onSuccess := None; LoginForm.redirectUrl := None;
                LoginForm.signupUrl := None |}
             (fun _ => LoginForm.Rejected)
             (LoginForm.setPassword "pw"
                (LoginForm.setEmail "bad" LoginForm.initial)))))
  = [[Text "Invalid email format"]]
  /\ paragraphs field_error_class
       (SignupFormView.render
          {| SignupForm.apiEndpoint := None; SignupForm.onSuccess := None;
             SignupForm.loginUrl := None |}
          (state_of
             (SignupForm.handleSubmit
                {| SignupForm.apiEndpoint := None; SignupForm.onSuccess := None;
                   SignupForm.loginUrl := None |}
                (fun _ _ => SignupForm.Rejected)
                (SignupForm.setPassword "short" SignupForm.initial))))
     = [[Text "Email is required"];
        [Text "Password must be at least 8 characters"]].
Proof.
  split.
  - rewrite (proj1 invalid_submit_shows_messages); [reflexivity |].
    left. discriminate.
  - rewrite (proj2 invalid_submit_shows_messages); [reflexivity |].
    left. discriminate.
Defined.

(** X14: the inputs are controlled.  Delivering a value [v] to the
    [onChange] of the email input yields a state whose render shows [v] in
    that input and the former value in the password input, and touches
    nothing else; likewise for the password input.  Both forms. *)
Theorem inputs_are_controlled :
  (forall props sys v,
     exists h_email h_password,
       List.map (get_prop "onChange")
         (by_id "input" "email"
            (LoginFormView.render props (LoginForm.form sys)))
       = [Some (POnChange h_email)]
       /\ List.map (get_prop "onChange")
            (by_id "input" "password"
               (LoginFormView.render props (LoginForm.form sys)))
          = [Some (POnChange h_password)]
       /\ (exists sys',
             LoginForm.step props sys (h_email v) = Some sys'
             /\ sys' = {| LoginForm.form :=
                            LoginForm.setEmail v (LoginForm.form sys);
                          LoginForm.inflight := LoginForm.inflight sys |}
             /\ List.map (get_prop "value")
                  (by_id "input" "email"
                     (LoginFormView.render props (LoginForm.form sys')))
                = [Some (PStr v)]
             /\ List.map (get_prop "value")
                  (by_id "input" "password"
                     (LoginFormView.render props (LoginForm.form sys')))
                = [Some (PStr (LoginForm.password (LoginForm.form sys)))])
       /\ (exists sys',
             LoginForm.step props sys (h_password v) = Some sys'
             /\ sys' = {| LoginForm.form :=
                            LoginForm.setPassword v (LoginForm.form sys);
                          LoginForm.inflight := LoginForm.inflight sys |}
             /\ List.map (get_prop "value")
                  (by_id "input" "password"
                     (LoginFormView.render props (LoginForm.form sys')))
                = [Some (PStr v)]
             /\ List.map (get_prop "value")
                  (by_id "input" "email"
                     (LoginFormView.render props (LoginForm.form sys')))
                = [Some (PStr (LoginForm.email (LoginForm.form sys)))]))
  /\ (forall props sys v,
        exists h_email h_password,
          List.map (get_prop "onChange")
            (by_id "input" "email"
               (SignupFormView.render props (SignupForm.form sys)))
          = [Some (POnChange h_email)]
          /\ List.map (get_prop "onChange")
               (by_id "input" "password"
                  (SignupFormView.render props (SignupForm.form sys)))
             = [Some (POnChange h_password)]
          /\ (exists sys',
                SignupForm.step props sys (h_email v) = Some sys'
                /\ sys' = {| SignupForm.form :=
                               SignupForm.setEmail v (SignupForm.form sys);
                             SignupForm.inflight := SignupForm.inflight sys |}
                /\ List.map (get_prop "value")
                     (by_id "input" "email"
                        (SignupFormView.render props (SignupForm.form sys')))
                   = [Some (PStr v)]
                /\ List.map (get_prop "value")
                     (by_id "input" "password"
                        (SignupFormView.render props (SignupForm.form sys')))
                   = [Some (PStr (SignupForm.password (SignupForm.form sys)))])
          /\ (exists sys',
                SignupForm.step props sys (h_password v) = Some sys'
                /\ sys' = {| SignupForm.form :=
                               SignupForm.setPassword v (SignupForm.form sys);
                             SignupForm.inflight := SignupForm.inflight sys |}
                /\ List.map (get_prop "value")
                     (by_id "input" "password"
                        (SignupFormView.render props (SignupForm.form sys')))
                   = [Some (PStr v)]
                /\ List.map (get_prop "value")
                     (by_id "input" "email"
                        (SignupFormView.render props (SignupForm.form sys')))
                   = [Some (PStr (SignupForm.email (SignupForm.form sys)))])).
Proof.
  split; intros props sys v.
  - exists LoginForm.ChangeEmail, LoginForm.ChangePassword.
    split; [unfold LoginFormView.render; by_rendering |].
    split; [unfold LoginFormView.render; by_rendering |].
    split; eexists; (split; [reflexivity |]); (split; [reflexivity |]);
      split; unfold LoginFormView.render; by_rendering.
  - exists SignupForm.ChangeEmail, SignupForm.ChangePassword.
    split; [unfold SignupFormView.render; by_rendering |].
    split; [unfold SignupFormView.render; by_rendering |].
    split; eexists; (split; [reflexivity |]); (split; [reflexivity |]);
      split; unfold SignupFormView.render; by_rendering.
Qed.

(** *** Submitting through the markup only *)

Lemma login_ui_run_keeps props (P : LoginForm.System -> Prop) :
  (forall sys ev sys',
     LoginFormView.ui_step props sys ev = Some sys' -> P sys -> P sys') ->
  forall evs sys sys',
    LoginFormView.ui_run props sys evs = Some sys' -> P sys -> P sys'.
Proof.
  intros Hstep evs.
  induction evs as [|ev evs IH]; intros sys sys' Hrun HP; simpl in Hrun.
  - now injection Hrun as <-.
  - destruct (LoginFormView.ui_step props sys ev) as [sys1|] eqn:H1;
      [| discriminate].
    exact (IH _ _ Hrun (Hstep _ _ _ H1 HP)).
Qed.

Lemma signup_ui_run_keeps props (P : SignupForm.System -> Prop) :
  (forall sys ev sys',
     SignupFormView.ui_step props sys ev = Some sys' -> P sys -> P sys') ->
  forall evs sys sys',
    SignupFormView.ui_run props sys evs = Some sys' -> P sys -> P sys'.
Proof.
  intros Hstep evs.
  induction evs as [|ev evs IH]; intros sys sys' Hrun HP; simpl in Hrun.
  - now injection Hrun as <-.
  - destruct (SignupFormView.ui_step props sys ev) as [sys1|] eqn:H1;
      [| discriminate].
    exact (IH _ _ Hrun (Hstep _ _ _ H1 HP)).
Qed.

Lemma login_ui_step_invariant props sys ev sys' :
  LoginFormView.ui_step props sys ev = Some sys' ->
  LoginForm.inflight sys = []
  \/ (LoginForm.loading (LoginForm.form sys) = true
      /\ length (LoginForm.inflight sys) = 1) ->
  LoginForm.inflight sys' = []
  \/ (LoginForm.loading (LoginForm.form sys') = true
      /\ length (LoginForm.inflight sys') = 1).
Proof.
  intros Hstep Hinv.
  destruct ev as [v | v | | i settled]; simpl in Hstep.
  - injection Hstep as <-. exact Hinv.
  - injection Hstep as <-. exact Hinv.
  - rewrite login_submit_disabled in Hstep.
    destruct (LoginForm.loading (LoginForm.form sys)) eqn:Hl; [discriminate |].
    destruct Hinv as [Hnone | [Habs _]]; [| discriminate Habs].
    injection Hstep as <-. simpl.
    destruct (login_begin_cases (LoginForm.form sys))
      as [[_ ->] | (_ & _ & options & ->)]; simpl.
    + now left.
    + right. rewrite Hnone. split; reflexivity.
  - destruct (LoginForm.inflight sys) as [|x [|y l]] eqn:Hin;
      destruct i as [|[|i]]; simpl in Hstep; try discriminate;
      destruct Hinv as [Hnone | [_ Hlen]]; try discriminate.
    injection Hstep as <-. now left.
Qed.

(** X15: when the login form is submitted through its markup only, at most
    one [signIn] call is in flight at any time, and while one is in flight
    the submit button is rendered disabled. *)
Theorem login_single_flight props sys :
  LoginFormView.ui_reachable props sys ->
  length (LoginForm.inflight sys) <= 1
  /\ (LoginForm.inflight sys <> [] ->
      submit_disabled (LoginFormView.render props (LoginForm.form sys)) = true).
Proof.
  intros [evs Hrun]. rewrite login_submit_disabled.
  assert (Hinv : LoginForm.inflight sys = []
                 \/ (LoginForm.loading (LoginForm.form sys) = true
                     /\ length (LoginForm.inflight sys) = 1)).
  { refine (login_ui_run_keeps props
              (fun sys => LoginForm.inflight sys = []
                          \/ (LoginForm.loading (LoginForm.form sys) = true
                              /\ length (LoginForm.inflight sys) = 1))
              (login_ui_step_invariant props) evs _ _ Hrun _).
    now left. }
  destruct Hinv as [-> | [Hl Hlen]].
  - split; [simpl; lia | congruence].
  - split; [lia | intros _; exact Hl].
Qed.

Lemma login_single_flight_witness :
  length
    [{| LoginForm.opt_email := "a@b.c"; LoginForm.opt_password := "pw";
        LoginForm.opt_redirect := false |}] <= 1
  /\ ([{| LoginForm.opt_email := "a@b.c"; LoginForm.opt_password := "pw";
          LoginForm.opt_redirect := false |}] <> [] ->
      submit_disabled
        (LoginFormView.render
           {| LoginForm.onSuccess := None; LoginForm.redirectUrl := None;
              LoginForm.signupUrl := None |}
           (LoginForm.setError ""
              (LoginForm.setLoading true
                 (LoginForm.setPassword "pw"
                    (LoginForm.setEmail "a@b.c" LoginForm.initial)))))
      = true).
Proof.
  apply (login_single_flight
           {| LoginForm.onSuccess := None; LoginForm.redirectUrl := None;
              LoginForm.signupUrl := None |}
           {| LoginForm.form :=
                LoginForm.setError ""
                  (LoginForm.setLoading true
                     (LoginForm.setPassword "pw"
                        (LoginForm.setEmail "a@b.c" LoginForm.initial)));
              LoginForm.inflight :=
                [{| LoginForm.opt_email := "a@b.c";
                    LoginForm.opt_password := "pw";
                    LoginForm.opt_redirect := false |}] |}).
  exists [LoginForm.ChangeEmail "a@b.c"; LoginForm.ChangePassword "pw";
          LoginForm.Submit].
  vm_compute. reflexivity.
Defined.

Lemma signup_ui_step_invariant props sys ev sys' :
  SignupFormView.ui_step props sys ev = Some sys' ->
  (SignupForm.loading (SignupForm.form sys) = false
   /\ SignupForm.inflight sys = [])
  \/ (SignupForm.loading (SignupForm.form sys) = true
      /\ length (SignupForm.inflight sys) = 1) ->
  (SignupForm.loading (SignupForm.form sys') = false
   /\ SignupForm.inflight sys' = [])
  \/ (SignupForm.loading (SignupForm.form sys') = true
      /\ length (SignupForm.inflight sys') = 1).
Proof.
  intros Hstep Hinv.
  destruct ev as [v | v | | i settled]; simpl in Hstep.
  - injection Hstep as <-. exact Hinv.
  - injection Hstep as <-. exact Hinv.
  - rewrite signup_submit_disabled in Hstep.
    destruct (SignupForm.loading (SignupForm.form sys)) eqn:Hl;
      [discriminate |].
    destruct Hinv as [[_ Hnone] | [Habs _]]; [| discriminate Habs].
    injection Hstep as <-. simpl.
    destruct (signup_begin_cases props (SignupForm.form sys))
      as [[_ ->] | (_ & _ & init & ->)]; simpl.
    + left. split; [exact Hl | exact Hnone].
    + right. rewrite Hnone. split; reflexivity.
  - destruct (SignupForm.inflight sys) as [|x [|y l]] eqn:Hin;
      destruct i as [|[|i]]; simpl in Hstep; try discriminate;
      destruct Hinv as [[_ Hnone] | [_ Hlen]]; try discriminate.
    injection Hstep as <-. left. simpl.
    split; [apply signup_resume_clears_loading | reflexivity].
Qed.

(** X16: when the signup form is submitted through its markup only, at
    most one request is in flight at any time, and the submit button is
    rendered disabled exactly while one is in flight. *)
Theorem signup_single_flight props sys :
  SignupFormView.ui_reachable props sys ->
  length (SignupForm.inflight sys) <= 1
  /\ (submit_disabled (SignupFormView.render props (SignupForm.form sys)) = true
      <-> SignupForm.inflight sys <> []).
Proof.
  intros [evs Hrun]. rewrite signup_submit_disabled.
  assert (Hinv : (SignupForm.loading (SignupForm.form sys) = false
                  /\ SignupForm.inflight sys = [])
                 \/ (SignupForm.loading (SignupForm.form sys) = true
                     /\ length (SignupForm.inflight sys) = 1)).
  { refine (signup_ui_run_keeps props
              (fun sys => (SignupForm.loading (SignupForm.form sys) = false
                           /\ SignupForm.inflight sys = [])
                          \/ (SignupForm.loading (SignupForm.form sys) = true
                              /\ length (SignupForm.inflight sys) = 1))
              (signup_ui_step_invariant props) evs _ _ Hrun _).
    now left. }
  destruct Hinv as [[Hl ->] | [Hl Hlen]]; rewrite Hl.
  - split; [simpl; lia |]. split; [discriminate | congruence].
  - split; [lia |]. split; [| reflexivity].
    intros _ Hnil. rewrite Hnil in Hlen. discriminate Hlen.
Qed.

Lemma signup_single_flight_witness :
  length
    [{| SignupForm.method := "POST";
        SignupForm.headers := {[ "Content-Type" := "application/json" ]};
        SignupForm.body :=
          JObj {[ "email" := JStr "a@b.com";
                  "password" := JStr "longenough1" ]} |}] <= 1
  /\ (submit_disabled
        (SignupFormView.render
           {| SignupForm.apiEndpoint := None; SignupForm.onSuccess := None;
              SignupForm.loginUrl := None |}
           (SignupForm.setError (JStr "")
              (SignupForm.setLoading true
                 (SignupForm.setPassword "longenough1"
                    (SignupForm.setEmail "a@b.com" SignupForm.initial)))))
      = true
      <-> [{| SignupForm.method := "POST";
              SignupForm.headers := {[ "Content-Type" := "application/json" ]};
              SignupForm.body :=
                JObj {[ "email" := JStr "a@b.com";
                        "password" := JStr "longenough1" ]} |}] <> []).
Proof.
  apply (signup_single_flight
           {| SignupForm.apiEndpoint := None; SignupForm.onSuccess := None;
              SignupForm.loginUrl := None |}
           {| SignupForm.form :=
                SignupForm.setError (JStr "")
                  (SignupForm.setLoading true
                     (SignupForm.setPassword "longenough1"
                        (SignupForm.setEmail "a@b.com" SignupForm.initial)));
              SignupForm.inflight :=
                [{| SignupForm.method := "POST";
                    SignupForm.headers :=
                      {[ "Content-Type" := "application/json" ]};
                    SignupForm.body :=
                      JObj {[ "email" := JStr "a@b.com";
                              "password" := JStr "longenough1" ]} |}] |}).
  exists [SignupForm.ChangeEmail "a@b.com";
          SignupForm.ChangePassword "longenough1";
          SignupForm.Submit].
  vm_compute. reflexivity.
Defined.

End Markup.

(** ** The form after an error *)

Section AfterErrors.
Import JS Handler JSX.

(** A run with valid fields ends in the state its second half leaves. *)
Lemma login_valid_run_state props adapter (s : LoginForm.State) :
  LoginForm.validateEmail (LoginForm.email s) = "" ->
  LoginForm.validatePassword (LoginForm.password s) = "" ->
  state_of (LoginForm.handleSubmit props adapter s)
  = state_of
      (LoginForm.handleSubmit_resume props
         (adapter
            {| LoginForm.opt_email := LoginForm.email s;
               LoginForm.opt_password := LoginForm.password s;
               LoginForm.opt_redirect := false |})
         (LoginForm.setError "" (LoginForm.setLoading true s))).
Proof.
  intros He Hp. pose proof (login_valid_begin s He Hp) as Hb. cbv zeta in Hb.
  unfold LoginForm.handleSubmit, bind. rewrite Hb.
  destruct (LoginForm.handleSubmit_resume _ _ _) as [[r s2] t2]. reflexivity.
Qed.

Lemma signup_valid_run_state props adapter (s : SignupForm.State) :
  SignupForm.validateEmail (SignupForm.email s) = "" ->
  SignupForm.validatePassword (SignupForm.password s) = "" ->
  exists init,
    state_of (SignupForm.handleSubmit props adapter s)
    = state_of
        (SignupForm.handleSubmit_resume props
           (adapter (SignupForm.apiEndpoint_or_default props) init)
           (SignupForm.setError (JStr "") (SignupForm.setLoading true s))).
Proof.
  intros He Hp. pose proof (signup_valid_begin props s He Hp) as Hb.
  cbv zeta in Hb.
  exists {| SignupForm.method := "POST";
            SignupForm.headers := {[ "Content-Type" := "application/json" ]};
            SignupForm.body :=
              JObj {[ "email" := JStr (SignupForm.email s);
                      "password" := JStr (SignupForm.password s) ]} |}.
  unfold SignupForm.handleSubmit, bind. rewrite Hb.
  destruct (SignupForm.handleSubmit_resume _ _ _) as [[r s2] t2]. reflexivity.
Qed.

(** X17: no run of [handleSubmit] changes the email or the password.  A
    run of the signup form's handler started with the submit button enabled
    ends with it enabled, whatever the adapter does; a run of the login
    form's handler does so when validation fails and when [signIn]
    resolves with a truthy [error]. *)
Theorem errors_leave_form_submittable :
  (forall props adapter (s : LoginForm.State),
     LoginForm.same_fields s (state_of (LoginForm.handleSubmit props adapter s)))
  /\ (forall props adapter (s : SignupForm.State),
        SignupForm.same_fields s
          (state_of (SignupForm.handleSubmit props adapter s)))
  /\ (forall props adapter (s : SignupForm.State),
        SignupForm.loading s = false ->
        submit_disabled
          (SignupFormView.render props
             (state_of (SignupForm.handleSubmit props adapter s)))
        = false)
  /\ (forall props adapter (s : LoginForm.State),
        LoginForm.loading s = false ->
        LoginForm.validateEmail (LoginForm.email s) <> ""
        \/ LoginForm.validatePassword (LoginForm.password s) <> "" ->
        submit_disabled
          (LoginFormView.render props
             (state_of (LoginForm.handleSubmit props adapter s)))
        = false)
  /\ (forall props adapter (s : LoginForm.State) result,
        LoginForm.validateEmail (LoginForm.email s) = "" ->
        LoginForm.validatePassword (LoginForm.password s) = "" ->
        adapter
          {| LoginForm.opt_email := LoginForm.email s;
             LoginForm.opt_password := LoginForm.password s;
             LoginForm.opt_redirect := false |}
        = LoginForm.Resolved result ->
        LoginForm.result_error_truthy result = true ->
        submit_disabled
          (LoginFormView.render props
             (state_of (LoginForm.handleSubmit props adapter s)))
        = false).
Proof.
  repeat apply conj.
  - exact login_handleSubmit_fields.
  - exact signup_handleSubmit_fields.
  - intros props adapter s Hl. rewrite signup_submit_disabled.
    destruct (signup_begin_cases props s) as [[H _] | (He & Hp & _)].
    + rewrite signup_invalid_submit by exact H. exact Hl.
    + destruct (signup_valid_run_state props adapter s He Hp) as [init ->].
      apply signup_resume_clears_loading.
  - intros props adapter s Hl H. rewrite login_submit_disabled.
    rewrite login_invalid_submit by exact H. exact Hl.
  - intros props adapter s result He Hp Hadapter Hresult.
    rewrite login_submit_disabled, login_valid_run_state by assumption.
    rewrite Hadapter. now apply login_failure_clears_loading.
Qed.

Lemma errors_leave_form_submittable_witness :
  submit_disabled
    (SignupFormView.render
       {| SignupForm.apiEndpoint := None; SignupForm.onSuccess := None;
          SignupForm.loginUrl := None |}
       (state_of
          (SignupForm.handleSubmit
             {| SignupForm.apiEndpoint := None; SignupForm.onSuccess := None;
                SignupForm.loginUrl := None |}
             (fun _ _ => SignupForm.Rejected)
             (SignupForm.setPassword "longenough1"
                (SignupForm.setEmail "a@b.com" SignupForm.initial)))))
  = false
  /\ submit_disabled
       (LoginFormView.render
          {| LoginForm.onSuccess := None; LoginForm.redirectUrl := None;
             LoginForm.signupUrl := None |}
          (state_of
             (LoginForm.handleSubmit
                {| LoginForm.onSuccess := None; LoginForm.redirectUrl := None;
                   LoginForm.signupUrl := None |}
                (fun _ => LoginForm.Rejected)
                (LoginForm.setEmail "bad" LoginForm.initial))))
     = false
  /\ submit_disabled
       (LoginFormView.render
          {| LoginForm.onSuccess := None; LoginForm.redirectUrl := None;
             LoginForm.signupUrl := None |}
          (state_of
             (LoginForm.handleSubmit
                {| LoginForm.onSuccess := None; LoginForm.redirectUrl := None;
                   LoginForm.signupUrl := None |}
                (fun _ =>
                   LoginForm.Resolved
                     (Some {| LoginForm.resp_error := Some "CredentialsSignin" |}))
                (LoginForm.setPassword "pw"
                   (LoginForm.setEmail "a@b.c" LoginForm.initial)))))
     = false.
Proof.
  pose proof errors_leave_form_submittable as (_ & _ & Hs & Hlv & Hla).
  split; [| split].
  - apply Hs. reflexivity.
  - apply Hlv; [reflexivity | left; discriminate].
  - apply (Hla _ _ _
             (Some {| LoginForm.resp_error := Some "CredentialsSignin" |}));
      reflexivity.
Defined.

End AfterErrors.
